(** * Verification-code cache of webook: internal/repository/cache/code.go

    A shallow embedding of the two [CodeCache] backends
    ([RedisCodeCache] and [LocalCodeCache]) and of the part of
    patrickmn/go-cache the local backend calls, followed by the
    properties of the specification that concern them. *)

From Stdlib Require Import ZArith Lia Ascii.
From stdpp Require Import gmap strings.

Local Open Scope Z_scope.

(** ** Go primitives used by the package *)

Module Go.

(** Two's-complement wrap-around of Go's [int64] arithmetic. *)
Definition wrap64 (z : Z) : Z := (z + 2 ^ 63) `mod` 2 ^ 64 - 2 ^ 63.

Definition int64_range (z : Z) : Prop := - 2 ^ 63 <= z < 2 ^ 63.

(** [a - b] and [a--] on [int64]. *)
Definition sub64 (a b : Z) : Z := wrap64 (a - b).
Definition dec64 (a : Z) : Z := wrap64 (a - 1).

(** [time.Duration] counts nanoseconds. *)
Definition Second : Z := 1000000000.
Definition Minute : Z := 60 * Second.

(** A [time.Time] is represented by its distance to the Unix epoch in
    nanoseconds.  [Unix] is the number of whole seconds, [UnixNano] the
    [int64] nanosecond count, [Add] shifts by a duration. *)
Definition Time : Type := Z.
Definition Unix (t : Time) : Z := t `div` Second.
Definition UnixNano (t : Time) : Z := wrap64 t.
Definition Add (t : Time) (d : Z) : Time := t + d.

(** [fmt.Sprintf] restricted to what the package uses: literal bytes, the
    verb [%s] applied to string operands, and [%%].  A [%s] with no
    operand left prints Go's [%!s(MISSING)]. *)
Fixpoint Sprintf (format : string) (args : list string) : string :=
  match format with
  | EmptyString => EmptyString
  | String "%"%char (String "s"%char rest) =>
      match args with
      | a :: args' => a +:+ Sprintf rest args'
      | [] => "%!s(MISSING)" +:+ Sprintf rest []
      end
  | String "%"%char (String "%"%char rest) => String "%"%char (Sprintf rest args)
  | String c rest => String c (Sprintf rest args)
  end.

End Go.

(** ** Errors of the package

    [nil] is [None] in an [option error].  The three sentinel errors are the
    package-level variables of code.go; [ErrSystem] is the
    [errors.New] value built by [RedisCodeCache.Set]; [ErrEval] stands for
    whatever error the Redis client hands back. *)

Inductive error : Type :=
| ErrCodeSendTooMany
| ErrCodeVerifyTooManyTimes
| ErrUnknownForCode
| ErrSystem
| ErrEval (msg : string).

#[global] Instance error_eq_dec : EqDecision error.
Proof. solve_decision. Defined.

(** ** Key scheme *)

Definition RedisCodeCache_key (biz phone : string) : string :=
  Go.Sprintf "phone_code:%s:%s" [biz; phone].

Definition LocalCodeCache_key (biz phone : string) : string :=
  Go.Sprintf "phone_code:%s:%s" [biz; phone].

(** The key scheme in the words of the specification (section 4.1). *)
Definition key_spec (business phone : string) : string :=
  "phone_code:" +:+ business +:+ ":" +:+ phone.

(** ** The in-process store: patrickmn/go-cache

    [LocalCodeCache.cache] is a [*cache.Cache] built by
    [cache.New(cache.NoExpiration, time.Minute*10)]: a map from keys to items,
    every item carrying the absolute [UnixNano] instant after which [Get] no
    longer returns it ([0]: never), and a janitor that calls [DeleteExpired]
    every ten minutes. *)

Record localCodeCacheValue : Type := {
  code : string;
  times : Z;        (* int64 *)
  createTime : Z    (* int64, Unix seconds *)
}.

(** What an [interface{}] read back from the cache can be: the
    [*localCodeCacheValue] this package stores, or anything else (the case
    the type assertions on [item] guard against).  The pointer
    handed to [cache.Set] is held by that one cache entry only, so the entry
    carries the pointed-to struct. *)
Inductive object : Type :=
| PtrCodeValue (v : localCodeCacheValue)
| Foreign.

Record Item : Type := { Object : object; Expiration : Z }.

Definition NoExpiration : Z := -1.
Definition DefaultExpiration : Z := 0.
Definition defaultExpiration : Z := NoExpiration.

(** [item.Expiration > 0 && now.UnixNano() > item.Expiration] *)
Definition Expired (now : Go.Time) (it : Item) : bool :=
  (0 <? Expiration it) && (Expiration it <? Go.UnixNano now).

Definition Cache_Get (now : Go.Time) (k : string) (items : gmap string Item)
  : option object :=
  match items !! k with
  | None => None
  | Some it => if Expired now it then None else Some (Object it)
  end.

Definition Cache_Set (now : Go.Time) (k : string) (x : object) (d : Z)
    (items : gmap string Item) : gmap string Item :=
  let d := if d =? DefaultExpiration then defaultExpiration else d in
  let e := if 0 <? d then Go.UnixNano (Go.Add now d) else 0 in
  <[k := {| Object := x; Expiration := e |}]> items.

(** The janitor's sweep. *)
Definition Cache_DeleteExpired (now : Go.Time) (items : gmap string Item)
  : gmap string Item :=
  filter (λ kv, Expired now kv.2 = false) items.

(** ** Local backend

    [Set] and [Verify] take [c.mutex] on entry and release it on return, so
    calls are serialised: each one is a function from the store before to
    the result and the store after.  Every [time.Now()] a call makes is an
    argument, in the order the call reads the clock. *)

Record SetClock : Type := {
  set_get : Go.Time;      (* inside c.cache.Get *)
  set_check : Go.Time;    (* time.Now().Unix() of the cooldown test *)
  set_create : Go.Time;   (* time.Now().Unix() of getValue *)
  set_put : Go.Time       (* inside c.cache.Set *)
}.

Record VerifyClock : Type := {
  verify_get : Go.Time;   (* inside c.cache.Get *)
  verify_put : Go.Time    (* inside c.cache.Set *)
}.

(** A call so short that all its clock readings coincide. *)
Definition SetAt (t : Go.Time) : SetClock :=
  {| set_get := t; set_check := t; set_create := t; set_put := t |}.
Definition VerifyAt (t : Go.Time) : VerifyClock :=
  {| verify_get := t; verify_put := t |}.

Definition getValue (now : Go.Time) (c : string) : localCodeCacheValue :=
  {| code := c; times := 3; createTime := Go.Unix now |}.

Definition LocalCodeCache_Set (clk : SetClock) (biz phone c : string)
    (items : gmap string Item) : option error * gmap string Item :=
  let key := LocalCodeCache_key biz phone in
  let issue :=
    (None, Cache_Set (set_put clk) key
             (PtrCodeValue (getValue (set_create clk) c)) (Go.Minute * 5) items) in
  match Cache_Get (set_get clk) key items with
  | Some item =>
      match item with
      | Foreign => (Some ErrUnknownForCode, items)
      | PtrCodeValue value =>
          if Go.sub64 (Go.Unix (set_check clk)) (createTime value) <? 60
          then (Some ErrCodeSendTooMany, items)
          else issue
      end
  | None => issue
  end.

Definition LocalCodeCache_Verify (clk : VerifyClock) (biz phone inputCode : string)
    (items : gmap string Item) : (bool * option error) * gmap string Item :=
  let key := LocalCodeCache_key biz phone in
  match Cache_Get (verify_get clk) key items with
  | None => ((false, Some ErrUnknownForCode), items)
  | Some Foreign => ((false, Some ErrUnknownForCode), items)
  | Some (PtrCodeValue value) =>
      if times value <=? 0 then
        ((false, Some ErrCodeVerifyTooManyTimes), items)
      else if negb (String.eqb (code value) inputCode) then
        let value := {| code := code value;
                        times := Go.dec64 (times value);
                        createTime := createTime value |} in
        ((false, Some ErrUnknownForCode),
         Cache_Set (verify_put clk) key (PtrCodeValue value) (Go.Minute * 5) items)
      else
        let value := {| code := code value;
                        times := -1;
                        createTime := createTime value |} in
        ((true, None),
         Cache_Set (verify_put clk) key (PtrCodeValue value) Go.Second items)
  end.

(** ** Runs of the local backend

    What can happen to the store: a [Set], a [Verify], or a sweep of the
    janitor. *)

Inductive op : Type :=
| OpSet (clk : SetClock) (biz phone c : string)
| OpVerify (clk : VerifyClock) (biz phone inputCode : string)
| OpSweep (now : Go.Time).

Inductive ret : Type :=
| RetSet (err : option error)
| RetVerify (ok : bool) (err : option error)
| RetSweep.

Definition step (o : op) (items : gmap string Item) : ret * gmap string Item :=
  match o with
  | OpSet clk biz phone c =>
      let '(err, items') := LocalCodeCache_Set clk biz phone c items in
      (RetSet err, items')
  | OpVerify clk biz phone inputCode =>
      let '((ok, err), items') := LocalCodeCache_Verify clk biz phone inputCode items in
      (RetVerify ok err, items')
  | OpSweep now => (RetSweep, Cache_DeleteExpired now items)
  end.

Fixpoint run (ops : list op) (items : gmap string Item)
  : list ret * gmap string Item :=
  match ops with
  | [] => ([], items)
  | o :: ops' =>
      let '(r, items') := step o items in
      let '(rs, items'') := run ops' items' in
      (r :: rs, items'')
  end.

(** The store of [NewCodeCache()] is empty; a state is reachable when some
    run leads to it from there. *)
Definition reachable (items : gmap string Item) : Prop :=
  ∃ ops, (run ops ∅).2 = items.

(** The record stored under a key, whether or not it has expired. *)
Definition record_at (k : string) (items : gmap string Item)
  : option localCodeCacheValue :=
  match items !! k with
  | Some {| Object := PtrCodeValue v |} => Some v
  | _ => None
  end.

(** Is the operation a [Set] whose key is [k]? *)
Definition is_Set_on (k : string) (o : op) : bool :=
  match o with
  | OpSet _ biz phone _ => String.eqb (LocalCodeCache_key biz phone) k
  | _ => false
  end.

(** Did the operation, with this result, issue a code under key [k]? *)
Definition issues_on (k : string) (o : op) (r : ret) : bool :=
  is_Set_on k o && match r with RetSet None => true | _ => false end.

(** No operation of the run from [items] issues a code under key [k]. *)
Fixpoint no_issue_on (k : string) (ops : list op) (items : gmap string Item)
  : bool :=
  match ops with
  | [] => true
  | o :: ops' =>
      let '(r, items') := step o items in
      negb (issues_on k o r) && no_issue_on k ops' items'
  end.

(** ** Shared backend

    [RedisCodeCache.Set] and [RedisCodeCache.Verify] send the scripts
    [luaSetCode] and [luaVerifyCode] to the store and map their integer
    answers.  The store and the script runs are parameters:
    [Eval_luaVerifyCode key inputCode s] is the pair [(res, err)] of
    [c.client.Eval(...).Int()] together with the store the script leaves. *)

Section RedisCodeCache.

Context {Redis : Type}.
Variable Eval_luaSetCode : string → string → Redis → (Z * option error) * Redis.
Variable Eval_luaVerifyCode : string → string → Redis → (Z * option error) * Redis.

Definition RedisCodeCache_Set (biz phone c : string) (s : Redis)
  : option error * Redis :=
  let '((res, err), s') :=
    Eval_luaSetCode (RedisCodeCache_key biz phone) c s in
  match err with
  | Some e => (Some e, s')
  | None =>
      if res =? 0 then (None, s')
      else if res =? -1 then (Some ErrCodeSendTooMany, s')
      else (Some ErrSystem, s')
  end.

Definition RedisCodeCache_Verify (biz phone inputCode : string) (s : Redis)
  : (bool * option error) * Redis :=
  let '((res, err), s') :=
    Eval_luaVerifyCode (RedisCodeCache_key biz phone) inputCode s in
  match err with
  | Some e => ((false, Some e), s')
  | None =>
      if res =? 0 then ((true, None), s')
      else if res =? -1 then ((false, Some ErrCodeVerifyTooManyTimes), s')
      else if res =? -2 then ((false, None), s')
      else ((false, Some ErrUnknownForCode), s')
  end.

End RedisCodeCache.

(** What the shared store keeps under a key, after the data model of
    section 3 of the specification. *)
Record RedisRecord : Type := {
  r_code : string;
  r_attempts : Z;
  r_expire : Z
}.

(** Modelled from the spec: lua/verify_code.lua, the script embedded into
    [luaVerifyCode], is not part of the sources at hand; this is the
    "Verify procedure" of section 4.3.  A key of the shared store holds a
    record (code, attempts, expiry) or nothing; on a key holding nothing
    there is no attempts field to test and the procedure answers
    not-found.  The spec names neither the integer answered in that case
    nor the sentinel written on a match, so both are arguments
    ([notfound], [disabled]). *)
Definition verify_procedure (notfound disabled : Z) (key candidate : string)
    (s : gmap string RedisRecord) : (Z * option error) * gmap string RedisRecord :=
  match s !! key with
  | None => ((notfound, None), s)
  | Some r =>
      if r_attempts r <=? 0 then ((-1, None), s)
      else if String.eqb candidate (r_code r) then
        ((0, None),
         <[key := {| r_code := r_code r; r_attempts := disabled;
                     r_expire := r_expire r |}]> s)
      else
        ((-2, None),
         <[key := {| r_code := r_code r; r_attempts := r_attempts r - 1;
                     r_expire := r_expire r |}]> s)
  end.

(** The record under [k], if there is one, has no attempt left: it has
    been consumed or exhausted. *)
Definition spent (k : string) (items : gmap string Item) : Prop :=
  ∀ v, record_at k items = Some v → times v ≤ 0.

(** An entry written at [put] with the five-minute lifetime is still
    returned by a [Get] at [get]: the clock is positive, the expiry fits
    an [int64], and [get] is not past it. *)
Definition within_lifetime (put get : Go.Time) : Prop :=
  0 < put ∧ put + Go.Minute * 5 < 2 ^ 63 ∧ 0 ≤ get ≤ put + Go.Minute * 5.

(** Stores in which every entry is a record of this package whose counter
    is one of -1, 0, 1, 2, 3. *)
Definition wf_store (items : gmap string Item) : Prop :=
  ∀ k it, items !! k = Some it →
    ∃ v, Object it = PtrCodeValue v ∧ -1 ≤ times v ≤ 3.

(** ** Sample data

    The scenario of section 8 of the specification: business "login", phone
    "13800000000", code "123456".  Instants are in seconds after the epoch. *)

Definition at_second (n : Z) : Go.Time := n * Go.Second.

Definition exhausted_store : gmap string Item :=
  {[ LocalCodeCache_key "login" "13800000000" :=
       {| Object := PtrCodeValue {| code := "123456"; times := 0; createTime := 1000 |};
          Expiration := 1300 * Go.Second |} ]}.

Definition exhausted_redis : gmap string RedisRecord :=
  {[ RedisCodeCache_key "login" "13800000000" :=
       {| r_code := "123456"; r_attempts := 0; r_expire := 1300 |} ]}.

(** The store after [Set("login", "13800000000", "123456")] on the empty
    cache, and the shared store holding the same record. *)
Definition issued_store : gmap string Item :=
  (LocalCodeCache_Set (SetAt (at_second 1000)) "login" "13800000000" "123456" ∅).2.

Definition issued_redis : gmap string RedisRecord :=
  {[ RedisCodeCache_key "login" "13800000000" :=
       {| r_code := "123456"; r_attempts := 3; r_expire := 1300 |} ]}.

(** The store after the issued code has been verified, 100 seconds after
    its issuance. *)
Definition consumed_store : gmap string Item :=
  (LocalCodeCache_Verify (VerifyAt (at_second 1100)) "login" "13800000000" "123456"
     issued_store).2.

(** The same, verified 30 seconds after issuance. *)
Definition consumed_early_store : gmap string Item :=
  (LocalCodeCache_Verify (VerifyAt (at_second 1030)) "login" "13800000000" "123456"
     issued_store).2.

(** Half a second after the given second. *)
Definition half_past (n : Z) : Go.Time := at_second n + 500000000.

(** Does the string contain the separator byte [:]? *)
Fixpoint has_colon (s : string) : bool :=
  match s with
  | EmptyString => false
  | String c s' => Ascii.eqb c ":" || has_colon s'
  end.

(** ** Web layer: internal/web/user.go

    The handlers talk to gin, to the session middleware, to three compiled
    regular expressions and to [service.UserService], none of which is
    among the sources.  A handler is embedded as the function from what
    those hand to it (the bound request body, the session value, the match
    results, the service results) to the list, in order, of the service
    calls it makes and the responses it writes. *)

(** [domain.User] is declared in a package that is not at hand; these are
    the fields user.go reads and writes, the others keep their zero
    value. *)
Record User : Type := {
  Id : Z;
  Email : string;
  Password : string;
  Nickname : string;
  Birthday : string;
  Brief : string
}.

(** The errors of package [service] the handlers compare against, and any
    other error. *)
Inductive service_error : Type :=
| ErrUserDuplicateEmail
| ErrInvalidUserOrPassword
| ErrService (msg : string).

(** What [sess.Get("userId")] can return: [nil], an [int64], or a value of
    another type. *)
Inductive session_value : Type :=
| SessNil
| SessInt64 (n : Z)
| SessOther.

Record SignUpReq : Type := {
  req_Email : string;
  req_ConfirmPassword : string;
  req_Password : string
}.

Record EditReq : Type := {
  req_Nickname : string;
  req_Birthday : string;
  req_Brief : string
}.

Inductive effect : Type :=
| CallSignUp (u : User)
| CallEdit (u : User)
| CallGetProfile (id : Z)
| CtxString (status : Z) (body : string)
| CtxJSONP (status : Z) (nickname birthday brief : string).

Definition StatusOK : Z := 200.

(** [userId, _ := id.(int64)] *)
Definition session_userId (id : session_value) : Z :=
  match id with
  | SessInt64 n => n
  | _ => 0
  end.

Section UserHandler.

(** [MatchString] of the three expressions: the pair [(ok, err)]. *)
Variables emailExp passwordExp birthdayExp : string → bool * option string.
Variable RuneCountInString : string → Z.
Variable svc_SignUp : User → option service_error.
Variable svc_Edit : User → option service_error.
Variable svc_GetProfile : Z → User * option service_error.

(** [bind] is the outcome of [ctx.Bind(&req)]: [None] when it failed, in
    which case gin has already written the 400 answer itself. *)
Definition UserHandler_SignUp (bind : option SignUpReq) : list effect :=
  match bind with
  | None => []
  | Some req =>
      match emailExp (req_Email req) with
      | (_, Some _) => [CtxString StatusOK "系统错误"]
      | (false, None) => [CtxString StatusOK "你的邮箱格式不对"]
      | (true, None) =>
          if negb (String.eqb (req_ConfirmPassword req) (req_Password req)) then
            [CtxString StatusOK "两次输入的密码不一致"]
          else
            match passwordExp (req_Password req) with
            | (_, Some _) => [CtxString StatusOK "系统错误"]
            | (false, None) =>
                [CtxString StatusOK "密码必须大于8位，包含数字、特殊字符"]
            | (true, None) =>
                let u := {| Id := 0; Email := req_Email req;
                            Password := req_Password req;
                            Nickname := ""; Birthday := ""; Brief := "" |} in
                CallSignUp u ::
                match svc_SignUp u with
                | Some ErrUserDuplicateEmail => [CtxString StatusOK "邮箱冲突"]
                | Some _ => [CtxString StatusOK "系统异常"]
                | None => [CtxString StatusOK "注册成功"]
                end
            end
      end
  end.

Definition UserHandler_Edit (id : session_value) (bind : option EditReq)
  : list effect :=
  let userId := session_userId id in
  match bind with
  | None => []
  | Some req =>
      match birthdayExp (req_Birthday req) with
      | (_, Some _) => [CtxString StatusOK "系统错误"]
      | (false, None) =>
          [CtxString StatusOK "生日格式不正确（格式:1992-01-01）"]
      | (true, None) =>
          if 255 <? RuneCountInString (req_Nickname req) then
            [CtxString StatusOK "昵称不超过255个字符"]
          else if 255 <? RuneCountInString (req_Brief req) then
            [CtxString StatusOK "个人简介不超过255个字符"]
          else
            let u := {| Id := userId; Email := ""; Password := "";
                        Nickname := req_Nickname req;
                        Birthday := req_Birthday req;
                        Brief := req_Brief req |} in
            let err := svc_Edit u in
            [CallEdit u; CtxString StatusOK "修改成功"]
      end
  end.

Definition UserHandler_Profile (id : session_value) : list effect :=
  let userId := session_userId id in
  let '(user, err) := svc_GetProfile userId in
  CallGetProfile userId ::
  match err with
  | Some _ => [CtxString StatusOK "系统错误"]
  | None => [CtxJSONP StatusOK (Nickname user) (Birthday user) (Brief user)]
  end.

End UserHandler.

(** The responses among the effects of a handler. *)
Definition is_response (e : effect) : bool :=
  match e with
  | CtxString _ _ | CtxJSONP _ _ _ _ => true
  | _ => false
  end.

Definition responses (l : list effect) : list effect := List.filter is_response l.

(** * Properties *)

Lemma append_empty_r (s : string) : s +:+ "" = s.
Proof.
  induction s as [|c s IH]; [reflexivity |].
  change (String c (s +:+ "") = String c s). by rewrite IH.
Qed.

Lemma LocalCodeCache_key_unfold biz phone :
  LocalCodeCache_key biz phone = "phone_code:" +:+ biz +:+ ":" +:+ phone.
Proof.
  unfold LocalCodeCache_key. cbn [Go.Sprintf].
  rewrite append_empty_r. reflexivity.
Qed.

Lemma RedisCodeCache_key_unfold biz phone :
  RedisCodeCache_key biz phone = "phone_code:" +:+ biz +:+ ":" +:+ phone.
Proof. apply LocalCodeCache_key_unfold. Qed.

(** ** Arithmetic of [int64] *)

Lemma wrap64_id z : Go.int64_range z → Go.wrap64 z = z.
Proof.
  unfold Go.int64_range, Go.wrap64. intros Hz.
  rewrite Z.mod_small by lia. lia.
Qed.

Lemma wrap64_range z : Go.int64_range (Go.wrap64 z).
Proof.
  unfold Go.int64_range, Go.wrap64.
  pose proof (Z.mod_pos_bound (z + 2 ^ 63) (2 ^ 64)). lia.
Qed.

Lemma dec64_exact t : 0 < t → t < 2 ^ 63 → Go.dec64 t = t - 1.
Proof. intros ??. apply wrap64_id. unfold Go.int64_range. lia. Qed.

(** Decrementing a positive counter never yields a larger one, whatever
    the width. *)
Lemma dec64_le t : 0 < t → Go.dec64 t ≤ t.
Proof.
  intros Ht. destruct (Z_lt_ge_dec t (2 ^ 63)) as [Hlt|Hge].
  - rewrite dec64_exact by done. lia.
  - pose proof (wrap64_range (t - 1)) as Hr.
    unfold Go.dec64, Go.int64_range in *. lia.
Qed.

(** ** The store *)

Lemma Cache_Get_Some now k items x :
  Cache_Get now k items = Some x ↔
  ∃ it, items !! k = Some it ∧ Expired now it = false ∧ Object it = x.
Proof.
  unfold Cache_Get. split.
  - destruct (items !! k) as [it|]; [|done].
    destruct (Expired now it) eqn:He; [done|].
    intros [= <-]. eauto.
  - intros (it & -> & -> & <-). done.
Qed.

Lemma Cache_Get_None now k items :
  Cache_Get now k items = None ↔
  items !! k = None ∨ ∃ it, items !! k = Some it ∧ Expired now it = true.
Proof.
  unfold Cache_Get. split.
  - destruct (items !! k) as [it|]; [|by left].
    destruct (Expired now it) eqn:He; [|done]. right. eauto.
  - intros [->|(it & -> & ->)]; done.
Qed.

Lemma Cache_Set_lookup now k x d items :
  Cache_Set now k x d items !! k =
  Some {| Object := x;
          Expiration := if 0 <? (if d =? DefaultExpiration then defaultExpiration else d)
                        then Go.UnixNano (Go.Add now d) else 0 |}.
Proof.
  unfold Cache_Set. rewrite lookup_insert_eq.
  unfold DefaultExpiration, defaultExpiration, NoExpiration.
  destruct (d =? 0) eqn:Hd; [|done].
  apply Z.eqb_eq in Hd. by subst.
Qed.

Lemma Cache_Set_lookup_ne now k k' x d items :
  k ≠ k' → Cache_Set now k x d items !! k' = items !! k'.
Proof. intros Hne. unfold Cache_Set. by rewrite lookup_insert_ne. Qed.

Lemma Cache_DeleteExpired_lookup now items k it :
  Cache_DeleteExpired now items !! k = Some it →
  items !! k = Some it.
Proof.
  unfold Cache_DeleteExpired. intros H.
  apply map_lookup_filter_Some in H. tauto.
Qed.

(** A positive duration below the [int64] horizon gives the entry exactly
    that lifetime. *)
Lemma Cache_Set_lifetime now k x d items t :
  0 < d → 0 < now → now + d < 2 ^ 63 → 0 ≤ t < 2 ^ 63 →
  Cache_Get t k (Cache_Set now k x d items) =
  if now + d <? t then None else Some x.
Proof.
  intros Hd Hnow Hend Ht.
  unfold Cache_Get. rewrite Cache_Set_lookup.
  unfold DefaultExpiration, defaultExpiration, NoExpiration, Expired; simpl.
  assert ((d =? 0) = false) as -> by lia.
  assert ((0 <? d) = true) as -> by lia.
  unfold Go.UnixNano, Go.Add.
  rewrite !wrap64_id by (unfold Go.int64_range; lia).
  assert ((0 <? now + d) = true) as -> by lia. simpl.
  done.
Qed.

(** ** Key scheme *)

(** C8: the key functions of the shared and of the local backend are the
    same function of (business, phone), and both compute
    "phone_code:" + business + ":" + phone; being functions of their two
    arguments alone they read and change nothing else. *)
Theorem key_scheme_backends_agree (business phone : string) :
  RedisCodeCache_key business phone = key_spec business phone ∧
  LocalCodeCache_key business phone = key_spec business phone ∧
  RedisCodeCache_key business phone = LocalCodeCache_key business phone.
Proof.
  unfold key_spec. rewrite RedisCodeCache_key_unfold, LocalCodeCache_key_unfold.
  done.
Qed.

(** C10: the key scheme is not injective.  The pairs ("a:b", "c") and
    ("a", "b:c") differ and get the same key in both backends, so every
    [Set] and [Verify] of the local backend treats them as one: same
    result, same store afterwards, hence one code, one cooldown and one
    attempt counter for the two pairs. *)
Theorem key_scheme_not_injective :
  ∃ business1 phone1 business2 phone2 : string,
    (business1, phone1) ≠ (business2, phone2) ∧
    LocalCodeCache_key business1 phone1 = LocalCodeCache_key business2 phone2 ∧
    RedisCodeCache_key business1 phone1 = RedisCodeCache_key business2 phone2 ∧
    (∀ clk c items,
       LocalCodeCache_Set clk business1 phone1 c items =
       LocalCodeCache_Set clk business2 phone2 c items) ∧
    (∀ clk inputCode items,
       LocalCodeCache_Verify clk business1 phone1 inputCode items =
       LocalCodeCache_Verify clk business2 phone2 inputCode items).
Proof.
  exists "a:b", "c", "a", "b:c".
  assert (LocalCodeCache_key "a:b" "c" = LocalCodeCache_key "a" "b:c") as Hk
    by reflexivity.
  split; [discriminate |].
  split; [exact Hk |].
  split; [reflexivity |].
  split.
  - intros clk c items. unfold LocalCodeCache_Set. by rewrite Hk.
  - intros clk inputCode items. unfold LocalCodeCache_Verify. by rewrite Hk.
Qed.

(** ** Verify without a record *)

(** C7: when the store holds no record for the key of (business, phone),
    either because the key is not in the map (never set, or swept) or
    because its entry has outlived its expiry (expired, or consumed more
    than a second ago), the local [Verify] answers [false] with
    [ErrUnknownForCode] for every input code and leaves the store as it
    was; the answer is the same in both cases, so it tells the caller
    nothing about which one occurred. *)
Theorem Verify_no_record_UnknownError
    (clk : VerifyClock) (biz phone inputCode : string) (items : gmap string Item) :
  (items !! LocalCodeCache_key biz phone = None ∨
   ∃ it, items !! LocalCodeCache_key biz phone = Some it ∧
         Expired (verify_get clk) it = true) →
  LocalCodeCache_Verify clk biz phone inputCode items =
    ((false, Some ErrUnknownForCode), items).
Proof.
  intros Hnone. apply Cache_Get_None in Hnone.
  unfold LocalCodeCache_Verify. by rewrite Hnone.
Qed.

Lemma Verify_no_record_UnknownError_witness :
  LocalCodeCache_Verify (VerifyAt 5) "login" "13800000000" "123456" ∅ =
    ((false, Some ErrUnknownForCode), ∅).
Proof.
  apply (Verify_no_record_UnknownError (VerifyAt 5) "login" "13800000000" "123456" ∅).
  left. reflexivity.
Defined.

(** ** The branches of [LocalCodeCache.Verify] *)

Section Verify_branches.

Variables (clk : VerifyClock) (biz phone inputCode : string).
Variable items : gmap string Item.

Let key := LocalCodeCache_key biz phone.

Lemma Verify_foreign :
  Cache_Get (verify_get clk) key items = Some Foreign →
  LocalCodeCache_Verify clk biz phone inputCode items =
    ((false, Some ErrUnknownForCode), items).
Proof. intros H. unfold LocalCodeCache_Verify. fold key. by rewrite H. Qed.

Lemma Verify_exhausted v :
  Cache_Get (verify_get clk) key items = Some (PtrCodeValue v) →
  times v ≤ 0 →
  LocalCodeCache_Verify clk biz phone inputCode items =
    ((false, Some ErrCodeVerifyTooManyTimes), items).
Proof.
  intros H Ht. unfold LocalCodeCache_Verify. fold key. rewrite H.
  by rewrite (proj2 (Z.leb_le _ _) Ht).
Qed.

Lemma Verify_mismatch v :
  Cache_Get (verify_get clk) key items = Some (PtrCodeValue v) →
  0 < times v →
  code v ≠ inputCode →
  LocalCodeCache_Verify clk biz phone inputCode items =
    ((false, Some ErrUnknownForCode),
     Cache_Set (verify_put clk) key
       (PtrCodeValue {| code := code v; times := Go.dec64 (times v);
                        createTime := createTime v |})
       (Go.Minute * 5) items).
Proof.
  intros H Ht Hc. unfold LocalCodeCache_Verify. fold key. rewrite H.
  rewrite (proj2 (Z.leb_gt _ _) Ht).
  by rewrite (proj2 (String.eqb_neq _ _) Hc).
Qed.

Lemma Verify_match v :
  Cache_Get (verify_get clk) key items = Some (PtrCodeValue v) →
  0 < times v →
  code v = inputCode →
  LocalCodeCache_Verify clk biz phone inputCode items =
    ((true, None),
     Cache_Set (verify_put clk) key
       (PtrCodeValue {| code := code v; times := -1;
                        createTime := createTime v |})
       Go.Second items).
Proof.
  intros H Ht Hc. unfold LocalCodeCache_Verify. fold key. rewrite H.
  rewrite (proj2 (Z.leb_gt _ _) Ht).
  by rewrite (proj2 (String.eqb_eq _ _) Hc).
Qed.

(** The only way to a [true] verdict. *)
Lemma Verify_true_inv err items' :
  LocalCodeCache_Verify clk biz phone inputCode items = ((true, err), items') →
  ∃ v, Cache_Get (verify_get clk) key items = Some (PtrCodeValue v) ∧
       0 < times v ∧ code v = inputCode ∧ err = None ∧
       items' = Cache_Set (verify_put clk) key
                  (PtrCodeValue {| code := code v; times := -1;
                                   createTime := createTime v |})
                  Go.Second items.
Proof.
  unfold LocalCodeCache_Verify. fold key.
  destruct (Cache_Get (verify_get clk) key items) as [[v|]|] eqn:Hg; try done.
  destruct (times v <=? 0) eqn:Ht; [done|].
  destruct (String.eqb (code v) inputCode) eqn:Hc; simpl; [|done].
  intros [= <- <-]. exists v.
  apply Z.leb_gt in Ht. apply String.eqb_eq in Hc. done.
Qed.

End Verify_branches.

(** The spec's verify procedure seen through [RedisCodeCache.Verify]. *)

Lemma RedisCodeCache_Verify_exhausted notfound disabled biz phone inputCode
    (s : gmap string RedisRecord) r :
  s !! RedisCodeCache_key biz phone = Some r →
  r_attempts r ≤ 0 →
  RedisCodeCache_Verify (verify_procedure notfound disabled) biz phone inputCode s =
    ((false, Some ErrCodeVerifyTooManyTimes), s).
Proof.
  intros Hr Ha. unfold RedisCodeCache_Verify, verify_procedure. rewrite Hr.
  by rewrite (proj2 (Z.leb_le _ _) Ha).
Qed.

Lemma RedisCodeCache_Verify_mismatch notfound disabled biz phone inputCode
    (s : gmap string RedisRecord) r :
  s !! RedisCodeCache_key biz phone = Some r →
  0 < r_attempts r →
  r_code r ≠ inputCode →
  RedisCodeCache_Verify (verify_procedure notfound disabled) biz phone inputCode s =
    ((false, None),
     <[RedisCodeCache_key biz phone :=
         {| r_code := r_code r; r_attempts := r_attempts r - 1;
            r_expire := r_expire r |}]> s).
Proof.
  intros Hr Ha Hc. unfold RedisCodeCache_Verify, verify_procedure. rewrite Hr.
  rewrite (proj2 (Z.leb_gt _ _) Ha).
  assert (String.eqb inputCode (r_code r) = false) as ->
    by (apply String.eqb_neq; congruence).
  done.
Qed.

(** ** Exhausted records *)

(** C6: a record whose attempt counter is zero or negative makes [Verify]
    answer [false] with [ErrCodeVerifyTooManyTimes] and leaves the store,
    hence the record and its expiry, exactly as it was.  Local backend: on
    the code.  Shared backend: the Go wrapper turns the script's answer -1
    into that result and touches the store no further; with the verify
    procedure of the specification the store is unchanged as well. *)
Theorem Verify_exhausted_TooManyTimes :
  (∀ clk biz phone inputCode (items : gmap string Item) v,
     Cache_Get (verify_get clk) (LocalCodeCache_key biz phone) items =
       Some (PtrCodeValue v) →
     times v ≤ 0 →
     LocalCodeCache_Verify clk biz phone inputCode items =
       ((false, Some ErrCodeVerifyTooManyTimes), items)) ∧
  (∀ (Redis : Type) (Eval : string → string → Redis → (Z * option error) * Redis)
     biz phone inputCode (s s' : Redis),
     Eval (RedisCodeCache_key biz phone) inputCode s = ((-1, None), s') →
     RedisCodeCache_Verify Eval biz phone inputCode s =
       ((false, Some ErrCodeVerifyTooManyTimes), s')) ∧
  (∀ notfound disabled biz phone inputCode (s : gmap string RedisRecord) r,
     s !! RedisCodeCache_key biz phone = Some r →
     r_attempts r ≤ 0 →
     RedisCodeCache_Verify (verify_procedure notfound disabled) biz phone inputCode s =
       ((false, Some ErrCodeVerifyTooManyTimes), s)).
Proof.
  split; [|split].
  - intros. by eapply Verify_exhausted.
  - intros Redis Eval biz phone inputCode s s' HE.
    unfold RedisCodeCache_Verify. by rewrite HE.
  - intros. by eapply RedisCodeCache_Verify_exhausted.
Qed.

Lemma Verify_exhausted_TooManyTimes_witness :
  LocalCodeCache_Verify (VerifyAt (at_second 1001)) "login" "13800000000" "123456"
      exhausted_store =
    ((false, Some ErrCodeVerifyTooManyTimes), exhausted_store) ∧
  RedisCodeCache_Verify (verify_procedure (-3) (-1)) "login" "13800000000" "123456"
      exhausted_redis =
    ((false, Some ErrCodeVerifyTooManyTimes), exhausted_redis) ∧
  RedisCodeCache_Verify (verify_procedure (-3) (-1)) "login" "13800000000" "000000"
      exhausted_redis =
    ((false, Some ErrCodeVerifyTooManyTimes), exhausted_redis).
Proof.
  destruct Verify_exhausted_TooManyTimes as (Hlocal & Hwrap & Hshared).
  split; [|split].
  - apply (Hlocal (VerifyAt (at_second 1001)) "login" "13800000000" "123456"
             exhausted_store
             {| code := "123456"; times := 0; createTime := 1000 |}).
    + reflexivity.
    + simpl. lia.
  - apply (Hwrap _ (verify_procedure (-3) (-1)) "login" "13800000000" "123456"
             exhausted_redis exhausted_redis).
    reflexivity.
  - apply (Hshared (-3) (-1) "login" "13800000000" "000000" exhausted_redis
             {| r_code := "123456"; r_attempts := 0; r_expire := 1300 |}).
    + reflexivity.
    + simpl. lia.
Defined.

(** ** Wrong code on an active record *)

(** C1: what [Verify] does when the key has a record that [Get] returns,
    with attempts left, and the input differs from the stored code.  Both
    backends take one attempt off and write the record back.  The shared
    backend answers [(false, nil)], through the Go wrapper for the script's
    answer -2.  The local backend answers [false] together with
    [ErrUnknownForCode], one of the error kinds, and not [nil]. *)
Theorem Verify_wrong_code_result :
  (∀ clk biz phone inputCode (items : gmap string Item) v,
     Cache_Get (verify_get clk) (LocalCodeCache_key biz phone) items =
       Some (PtrCodeValue v) →
     0 < times v < 2 ^ 63 →
     code v ≠ inputCode →
     LocalCodeCache_Verify clk biz phone inputCode items =
       ((false, Some ErrUnknownForCode),
        <[LocalCodeCache_key biz phone :=
            {| Object := PtrCodeValue {| code := code v; times := times v - 1;
                                         createTime := createTime v |};
               Expiration := Go.UnixNano (Go.Add (verify_put clk) (Go.Minute * 5)) |}]>
          items)) ∧
  (∀ (Redis : Type) (Eval : string → string → Redis → (Z * option error) * Redis)
     biz phone inputCode (s s' : Redis),
     Eval (RedisCodeCache_key biz phone) inputCode s = ((-2, None), s') →
     RedisCodeCache_Verify Eval biz phone inputCode s = ((false, None), s')) ∧
  (∀ notfound disabled biz phone inputCode (s : gmap string RedisRecord) r,
     s !! RedisCodeCache_key biz phone = Some r →
     0 < r_attempts r →
     r_code r ≠ inputCode →
     RedisCodeCache_Verify (verify_procedure notfound disabled) biz phone inputCode s =
       ((false, None),
        <[RedisCodeCache_key biz phone :=
            {| r_code := r_code r; r_attempts := r_attempts r - 1;
               r_expire := r_expire r |}]> s)).
Proof.
  split; [|split].
  - intros clk biz phone inputCode items v Hg [Hpos Hmax] Hne.
    rewrite (Verify_mismatch _ _ _ _ _ v) by done.
    by rewrite dec64_exact.
  - intros Redis Eval biz phone inputCode s s' HE.
    unfold RedisCodeCache_Verify. by rewrite HE.
  - intros. by eapply RedisCodeCache_Verify_mismatch.
Qed.

Lemma Verify_wrong_code_result_witness :
  LocalCodeCache_Verify (VerifyAt (at_second 1001)) "login" "13800000000" "000000"
      issued_store =
    ((false, Some ErrUnknownForCode),
     <[LocalCodeCache_key "login" "13800000000" :=
         {| Object := PtrCodeValue {| code := "123456"; times := 2; createTime := 1000 |};
            Expiration := 1301 * Go.Second |}]> issued_store) ∧
  RedisCodeCache_Verify (verify_procedure (-3) (-1)) "login" "13800000000" "000000"
      issued_redis =
    ((false, None),
     <[RedisCodeCache_key "login" "13800000000" :=
         {| r_code := "123456"; r_attempts := 2; r_expire := 1300 |}]> issued_redis) ∧
  RedisCodeCache_Verify (verify_procedure (-3) (-1)) "login" "13800000000" "654321"
      issued_redis =
    ((false, None),
     <[RedisCodeCache_key "login" "13800000000" :=
         {| r_code := "123456"; r_attempts := 2; r_expire := 1300 |}]> issued_redis).
Proof.
  destruct Verify_wrong_code_result as (Hlocal & Hwrap & Hshared).
  split; [|split].
  - rewrite (Hlocal (VerifyAt (at_second 1001)) "login" "13800000000" "000000"
               issued_store
               {| code := "123456"; times := 3; createTime := 1000 |}).
    + reflexivity.
    + reflexivity.
    + simpl. lia.
    + discriminate.
  - apply (Hwrap _ (verify_procedure (-3) (-1)) "login" "13800000000" "000000"
             issued_redis).
    reflexivity.
  - rewrite (Hshared (-3) (-1) "login" "13800000000" "654321" issued_redis
               {| r_code := "123456"; r_attempts := 3; r_expire := 1300 |}).
    + reflexivity.
    + reflexivity.
    + simpl. lia.
    + discriminate.
Defined.

(** ** The branches of [LocalCodeCache.Set] *)

Section Set_branches.

Variables (clk : SetClock) (biz phone c : string).
Variable items : gmap string Item.

Let key := LocalCodeCache_key biz phone.

Lemma Set_foreign :
  Cache_Get (set_get clk) key items = Some Foreign →
  LocalCodeCache_Set clk biz phone c items = (Some ErrUnknownForCode, items).
Proof. intros H. unfold LocalCodeCache_Set. fold key. by rewrite H. Qed.

Lemma Set_cooldown v :
  Cache_Get (set_get clk) key items = Some (PtrCodeValue v) →
  Go.sub64 (Go.Unix (set_check clk)) (createTime v) < 60 →
  LocalCodeCache_Set clk biz phone c items = (Some ErrCodeSendTooMany, items).
Proof.
  intros H Hlt. unfold LocalCodeCache_Set. fold key. rewrite H.
  by rewrite (proj2 (Z.ltb_lt _ _) Hlt).
Qed.

Lemma Set_elapsed v :
  Cache_Get (set_get clk) key items = Some (PtrCodeValue v) →
  60 ≤ Go.sub64 (Go.Unix (set_check clk)) (createTime v) →
  LocalCodeCache_Set clk biz phone c items =
    (None, Cache_Set (set_put clk) key
             (PtrCodeValue (getValue (set_create clk) c)) (Go.Minute * 5) items).
Proof.
  intros H Hge. unfold LocalCodeCache_Set. fold key. rewrite H.
  by rewrite (proj2 (Z.ltb_ge _ _) Hge).
Qed.

Lemma Set_no_record :
  Cache_Get (set_get clk) key items = None →
  LocalCodeCache_Set clk biz phone c items =
    (None, Cache_Set (set_put clk) key
             (PtrCodeValue (getValue (set_create clk) c)) (Go.Minute * 5) items).
Proof. intros H. unfold LocalCodeCache_Set. fold key. by rewrite H. Qed.

(** Whatever [Set] does, the store afterwards is the old one or the old
    one with a fresh record under the key. *)
Lemma Set_store_cases :
  (LocalCodeCache_Set clk biz phone c items).2 = items ∨
  LocalCodeCache_Set clk biz phone c items =
    (None, Cache_Set (set_put clk) key
             (PtrCodeValue (getValue (set_create clk) c)) (Go.Minute * 5) items).
Proof.
  unfold LocalCodeCache_Set. fold key.
  destruct (Cache_Get (set_get clk) key items) as [[v|]|]; simpl; auto.
  destruct (Go.sub64 _ _ <? 60); simpl; auto.
Qed.

End Set_branches.

(** ** Issuing a code *)

(** A code is issued when the clock reads 1000.999999999 s, which [getValue]
    stamps as Unix second 1000.  A [Set] at 1060 s, 59.000000001 s later and
    so within 60 seconds of the issuance, still gets the record from [Get],
    and yet it answers [nil] and replaces the record: the cooldown test sees
    1060 - 1000 = 60 whole seconds. *)
Lemma Set_within_60_seconds_can_issue :
  let key := LocalCodeCache_key "login" "13800000000" in
  let issued_at := at_second 1000 + 999999999 in
  let s1 := LocalCodeCache_Set (SetAt issued_at) "login" "13800000000" "123456" ∅ in
  let s2 := LocalCodeCache_Set (SetAt (at_second 1060)) "login" "13800000000" "654321"
              s1.2 in
  s1.1 = None ∧
  Cache_Get (at_second 1060) key s1.2 =
    Some (PtrCodeValue {| code := "123456"; times := 3; createTime := 1000 |}) ∧
  0 ≤ at_second 1060 - issued_at < 60 * Go.Second ∧
  s2.1 = None ∧
  s2.1 ≠ Some ErrCodeSendTooMany ∧
  record_at key s2.2 = Some {| code := "654321"; times := 3; createTime := 1060 |}.
Proof.
  cbv zeta.
  split; [reflexivity |]. split; [reflexivity |].
  split; [unfold at_second, Go.Second; lia |].
  split; [vm_compute; reflexivity |].
  split; [vm_compute; discriminate |].
  vm_compute. reflexivity.
Qed.

(** C3, amended: the local [Set], with the cooldown counted in whole Unix
    seconds as the code does.  When [Get] returns a record of the key and
    the clock, in Unix seconds, is less than 60 past the record's issuance
    second, [Set] answers [ErrCodeSendTooMany] and the store, hence the
    record, is what it was.  When [Get] returns nothing, or that difference
    is 60 or more, [Set] answers [nil] and the key now holds the new code
    with 3 attempts, the current Unix second as issuance time, and an
    expiry five minutes after the write. *)
Theorem Set_cooldown_or_issue
    (clk : SetClock) (biz phone c : string) (items : gmap string Item) :
  let key := LocalCodeCache_key biz phone in
  (∀ v, Cache_Get (set_get clk) key items = Some (PtrCodeValue v) →
        Go.int64_range (Go.Unix (set_check clk) - createTime v) →
        Go.Unix (set_check clk) - createTime v < 60 →
        LocalCodeCache_Set clk biz phone c items = (Some ErrCodeSendTooMany, items)) ∧
  ((Cache_Get (set_get clk) key items = None ∨
    ∃ v, Cache_Get (set_get clk) key items = Some (PtrCodeValue v) ∧
         Go.int64_range (Go.Unix (set_check clk) - createTime v) ∧
         60 ≤ Go.Unix (set_check clk) - createTime v) →
   LocalCodeCache_Set clk biz phone c items =
     (None,
      <[key := {| Object := PtrCodeValue
                    {| code := c; times := 3;
                       createTime := Go.Unix (set_create clk) |};
                  Expiration := Go.UnixNano (Go.Add (set_put clk) (Go.Minute * 5)) |}]>
        items)).
Proof.
  intros key. split.
  - intros v Hg Hr Hlt. apply (Set_cooldown _ _ _ _ _ v); [done|].
    unfold Go.sub64. by rewrite wrap64_id.
  - intros [Hnone | (v & Hg & Hr & Hge)].
    + by rewrite Set_no_record.
    + rewrite (Set_elapsed _ _ _ _ _ v); [done | done |].
      unfold Go.sub64. by rewrite wrap64_id.
Qed.

Lemma Set_cooldown_or_issue_witness :
  LocalCodeCache_Set (SetAt (at_second 1059)) "login" "13800000000" "654321"
      issued_store =
    (Some ErrCodeSendTooMany, issued_store) ∧
  LocalCodeCache_Set (SetAt (at_second 1000)) "login" "13800000000" "123456" ∅ =
    (None,
     {[ LocalCodeCache_key "login" "13800000000" :=
          {| Object := PtrCodeValue {| code := "123456"; times := 3; createTime := 1000 |};
             Expiration := at_second 1300 |} ]}) ∧
  LocalCodeCache_Set (SetAt (at_second 1060)) "login" "13800000000" "654321"
      issued_store =
    (None,
     {[ LocalCodeCache_key "login" "13800000000" :=
          {| Object := PtrCodeValue {| code := "654321"; times := 3; createTime := 1060 |};
             Expiration := at_second 1360 |} ]}).
Proof.
  split; [|split].
  - apply (proj1 (Set_cooldown_or_issue (SetAt (at_second 1059))
                    "login" "13800000000" "654321" issued_store)
             {| code := "123456"; times := 3; createTime := 1000 |}).
    + reflexivity.
    + change (Go.int64_range 59). unfold Go.int64_range. lia.
    + change (59 < 60). lia.
  - rewrite (proj2 (Set_cooldown_or_issue (SetAt (at_second 1000))
                      "login" "13800000000" "123456" ∅)).
    + reflexivity.
    + left. reflexivity.
  - rewrite (proj2 (Set_cooldown_or_issue (SetAt (at_second 1060))
                      "login" "13800000000" "654321" issued_store)).
    + vm_compute. reflexivity.
    + right. exists {| code := "123456"; times := 3; createTime := 1000 |}.
      split; [reflexivity |].
      change (Go.int64_range 60 ∧ 60 ≤ 60). unfold Go.int64_range. lia.
Defined.

(** ** Three wrong codes in a row *)

Lemma Cache_Get_within_lifetime put get k x items :
  within_lifetime put get →
  Cache_Get get k (Cache_Set put k x (Go.Minute * 5) items) = Some x.
Proof.
  intros (Hput & Hend & Hget).
  rewrite Cache_Set_lifetime; [| done | done | done | lia].
  by rewrite (proj2 (Z.ltb_ge _ _) (proj2 Hget)).
Qed.

Lemma Set_nil_inv clk biz phone c items :
  (LocalCodeCache_Set clk biz phone c items).1 = None →
  LocalCodeCache_Set clk biz phone c items =
    (None, Cache_Set (set_put clk) (LocalCodeCache_key biz phone)
             (PtrCodeValue (getValue (set_create clk) c)) (Go.Minute * 5) items).
Proof.
  unfold LocalCodeCache_Set.
  destruct (Cache_Get _ _ items) as [[v|]|]; simpl; try done.
  destruct (Go.sub64 _ _ <? 60); simpl; done.
Qed.

(** C2: a record just issued by [Set] and then verified four times with
    codes that differ from the issued one (the fourth may be any code),
    each call finding the record alive.  The counter goes 3, 2, 1, 0 and
    stays at 0; the fourth call answers [ErrCodeVerifyTooManyTimes].  The
    first three calls answer [false] with [ErrUnknownForCode], where the
    claim has [(false, nil)]. *)
Theorem three_wrong_codes_then_lockout
    (clk0 : SetClock) (clk1 clk2 clk3 clk4 : VerifyClock)
    (biz phone c w1 w2 w3 w4 : string) (items : gmap string Item) :
  (LocalCodeCache_Set clk0 biz phone c items).1 = None →
  w1 ≠ c → w2 ≠ c → w3 ≠ c →
  within_lifetime (set_put clk0) (verify_get clk1) →
  within_lifetime (verify_put clk1) (verify_get clk2) →
  within_lifetime (verify_put clk2) (verify_get clk3) →
  within_lifetime (verify_put clk3) (verify_get clk4) →
  let key := LocalCodeCache_key biz phone in
  let ops := [OpVerify clk1 biz phone w1; OpVerify clk2 biz phone w2;
              OpVerify clk3 biz phone w3; OpVerify clk4 biz phone w4] in
  let s0 := (LocalCodeCache_Set clk0 biz phone c items).2 in
  (run ops s0).1 =
    [RetVerify false (Some ErrUnknownForCode);
     RetVerify false (Some ErrUnknownForCode);
     RetVerify false (Some ErrUnknownForCode);
     RetVerify false (Some ErrCodeVerifyTooManyTimes)] ∧
  times <$> record_at key s0 = Some 3 ∧
  times <$> record_at key (run (take 1 ops) s0).2 = Some 2 ∧
  times <$> record_at key (run (take 2 ops) s0).2 = Some 1 ∧
  times <$> record_at key (run (take 3 ops) s0).2 = Some 0 ∧
  times <$> record_at key (run ops s0).2 = Some 0.
Proof.
  intros Hset Hw1 Hw2 Hw3 L1 L2 L3 L4 key ops s0.
  apply Set_nil_inv in Hset. fold key in Hset.
  assert (s0 = Cache_Set (set_put clk0) key
                 (PtrCodeValue (getValue (set_create clk0) c)) (Go.Minute * 5) items)
    as Hs0 by (unfold s0; by rewrite Hset).
  clearbody s0. subst s0.
  set (s0 := Cache_Set (set_put clk0) key _ _ items).
  set (ct := Go.Unix (set_create clk0)).
  pose (v := λ n, {| code := c; times := n; createTime := ct |}).
  pose (s1 := Cache_Set (verify_put clk1) key (PtrCodeValue (v 2)) (Go.Minute * 5) s0).
  pose (s2 := Cache_Set (verify_put clk2) key (PtrCodeValue (v 1)) (Go.Minute * 5) s1).
  pose (s3 := Cache_Set (verify_put clk3) key (PtrCodeValue (v 0)) (Go.Minute * 5) s2).
  assert (LocalCodeCache_Verify clk1 biz phone w1 s0 =
            ((false, Some ErrUnknownForCode), s1)) as E1.
  { rewrite (Verify_mismatch _ _ _ _ _ (v 3)); [done | | simpl; lia | simpl; congruence].
    by apply Cache_Get_within_lifetime. }
  assert (LocalCodeCache_Verify clk2 biz phone w2 s1 =
            ((false, Some ErrUnknownForCode), s2)) as E2.
  { rewrite (Verify_mismatch _ _ _ _ _ (v 2)); [done | | simpl; lia | simpl; congruence].
    by apply Cache_Get_within_lifetime. }
  assert (LocalCodeCache_Verify clk3 biz phone w3 s2 =
            ((false, Some ErrUnknownForCode), s3)) as E3.
  { rewrite (Verify_mismatch _ _ _ _ _ (v 1)); [done | | simpl; lia | simpl; congruence].
    by apply Cache_Get_within_lifetime. }
  assert (LocalCodeCache_Verify clk4 biz phone w4 s3 =
            ((false, Some ErrCodeVerifyTooManyTimes), s3)) as E4.
  { apply (Verify_exhausted _ _ _ _ _ (v 0)); [| simpl; lia].
    by apply Cache_Get_within_lifetime. }
  assert (∀ put n s, times <$> record_at key
            (Cache_Set put key (PtrCodeValue (v n)) (Go.Minute * 5) s) = Some n) as Hrec.
  { intros put n s. unfold record_at. by rewrite Cache_Set_lookup. }
  unfold ops. simpl. rewrite E1. simpl. rewrite E2. simpl. rewrite E3. simpl.
  rewrite E4. simpl.
  repeat split; try done; apply Hrec.
Qed.

Lemma three_wrong_codes_then_lockout_witness :
  let key := LocalCodeCache_key "login" "13800000000" in
  let ops := [OpVerify (VerifyAt (at_second 1001)) "login" "13800000000" "000000";
              OpVerify (VerifyAt (at_second 1002)) "login" "13800000000" "111111";
              OpVerify (VerifyAt (at_second 1003)) "login" "13800000000" "222222";
              OpVerify (VerifyAt (at_second 1004)) "login" "13800000000" "123456"] in
  (run ops issued_store).1 =
    [RetVerify false (Some ErrUnknownForCode);
     RetVerify false (Some ErrUnknownForCode);
     RetVerify false (Some ErrUnknownForCode);
     RetVerify false (Some ErrCodeVerifyTooManyTimes)] ∧
  times <$> record_at key issued_store = Some 3 ∧
  times <$> record_at key (run (take 1 ops) issued_store).2 = Some 2 ∧
  times <$> record_at key (run (take 2 ops) issued_store).2 = Some 1 ∧
  times <$> record_at key (run (take 3 ops) issued_store).2 = Some 0 ∧
  times <$> record_at key (run ops issued_store).2 = Some 0.
Proof.
  assert (∀ n, 0 < n < 2000 → within_lifetime (at_second n) (at_second (n + 1)))
    as Hlife.
  { intros n Hn. unfold within_lifetime, at_second, Go.Minute, Go.Second. lia. }
  apply (three_wrong_codes_then_lockout
           (SetAt (at_second 1000))
           (VerifyAt (at_second 1001)) (VerifyAt (at_second 1002))
           (VerifyAt (at_second 1003)) (VerifyAt (at_second 1004))
           "login" "13800000000" "123456" "000000" "111111" "222222" "123456" ∅).
  - reflexivity.
  - discriminate.
  - discriminate.
  - discriminate.
  - apply (Hlife 1000). lia.
  - apply (Hlife 1001). lia.
  - apply (Hlife 1002). lia.
  - apply (Hlife 1003). lia.
Defined.

(** ** How the operations change the record of a key *)

Lemma Cache_Get_record_at now k items v :
  Cache_Get now k items = Some (PtrCodeValue v) → record_at k items = Some v.
Proof.
  intros (it & Hit & _ & Hobj)%Cache_Get_Some.
  unfold record_at. rewrite Hit. destruct it as [o e]. simpl in Hobj. by subst.
Qed.

Lemma record_at_Cache_Set now k x d items :
  record_at k (Cache_Set now k x d items) =
  match x with PtrCodeValue v => Some v | Foreign => None end.
Proof. unfold record_at. rewrite Cache_Set_lookup. by destruct x. Qed.

Lemma record_at_Cache_Set_ne now k k' x d items :
  k ≠ k' → record_at k' (Cache_Set now k x d items) = record_at k' items.
Proof. intros Hne. unfold record_at. by rewrite Cache_Set_lookup_ne. Qed.

Lemma record_at_DeleteExpired now k items v :
  record_at k (Cache_DeleteExpired now items) = Some v → record_at k items = Some v.
Proof.
  unfold record_at.
  destruct (Cache_DeleteExpired now items !! k) as [it|] eqn:Hit; [|done].
  by rewrite (Cache_DeleteExpired_lookup _ _ _ _ Hit).
Qed.

(** [Verify] either leaves the store alone or rewrites the record it found,
    which had attempts left, with a counter that is not larger. *)
Lemma Verify_store_cases clk biz phone inputCode items :
  (LocalCodeCache_Verify clk biz phone inputCode items).2 = items ∨
  ∃ v v' d,
    Cache_Get (verify_get clk) (LocalCodeCache_key biz phone) items =
      Some (PtrCodeValue v) ∧
    0 < times v ∧ times v' ≤ times v ∧
    (LocalCodeCache_Verify clk biz phone inputCode items).2 =
      Cache_Set (verify_put clk) (LocalCodeCache_key biz phone)
        (PtrCodeValue v') d items.
Proof.
  unfold LocalCodeCache_Verify.
  destruct (Cache_Get _ _ items) as [[v|]|] eqn:Hg; simpl; auto.
  destruct (times v <=? 0) eqn:Ht; simpl; auto.
  apply Z.leb_gt in Ht. right.
  destruct (String.eqb (code v) inputCode); simpl.
  - eexists v, _, _. split_and!; [done | done | | done]. simpl. lia.
  - eexists v, _, _. split_and!; [done | done | | done]. simpl. by apply dec64_le.
Qed.

Lemma step_OpVerify_store clk biz phone inputCode items :
  (step (OpVerify clk biz phone inputCode) items).2 =
  (LocalCodeCache_Verify clk biz phone inputCode items).2.
Proof.
  simpl. by destruct (LocalCodeCache_Verify _ _ _ _ _) as [[ok err] items'].
Qed.

Lemma step_OpSet clk biz phone c items :
  step (OpSet clk biz phone c) items =
  (RetSet (LocalCodeCache_Set clk biz phone c items).1,
   (LocalCodeCache_Set clk biz phone c items).2).
Proof. simpl. by destruct (LocalCodeCache_Set _ _ _ _ _) as [err items']. Qed.

(** ** A consumed record stays consumed *)

Lemma step_preserves_spent k o items :
  issues_on k o (step o items).1 = false →
  spent k items → spent k (step o items).2.
Proof.
  intros Hno Hsp v'. destruct o as [clk biz phone c|clk biz phone inputCode|now].
  - revert Hno. rewrite step_OpSet. cbn [fst snd].
    destruct (Set_store_cases clk biz phone c items) as [-> | ->];
      [intros _; apply Hsp|].
    cbn [fst snd]. unfold issues_on, is_Set_on. rewrite andb_true_r.
    intros Hne%String.eqb_neq.
    rewrite record_at_Cache_Set_ne by done. apply Hsp.
  - rewrite step_OpVerify_store.
    destruct (Verify_store_cases clk biz phone inputCode items)
      as [-> | (v & w & d & Hg & Hpos & _ & ->)]; [apply Hsp|].
    destruct (decide (LocalCodeCache_key biz phone = k)) as [<-|Hne].
    + apply Cache_Get_record_at, Hsp in Hg. lia.
    + rewrite record_at_Cache_Set_ne by done. apply Hsp.
  - simpl. intros Hv%record_at_DeleteExpired. by apply Hsp.
Qed.

Lemma run_preserves_spent k ops items :
  no_issue_on k ops items = true →
  spent k items → spent k (run ops items).2.
Proof.
  revert items. induction ops as [|o ops IH]; intros items Hops Hsp; [done|].
  simpl in Hops |- *.
  pose proof (step_preserves_spent k o items) as Hstep.
  destruct (step o items) as [r items']. simpl in Hstep.
  apply andb_true_iff in Hops as [Hno%negb_true_iff Hops].
  specialize (IH items' Hops (Hstep Hno Hsp)).
  by destruct (run ops items') as [rs items''].
Qed.

Lemma Verify_spent clk biz phone inputCode items :
  spent (LocalCodeCache_key biz phone) items →
  (LocalCodeCache_Verify clk biz phone inputCode items).1 =
    (false, Some ErrUnknownForCode) ∨
  (LocalCodeCache_Verify clk biz phone inputCode items).1 =
    (false, Some ErrCodeVerifyTooManyTimes).
Proof.
  intros Hsp.
  destruct (Cache_Get (verify_get clk) (LocalCodeCache_key biz phone) items)
    as [[v|]|] eqn:Hg.
  - right. rewrite (Verify_exhausted _ _ _ _ _ v); [done | done |].
    by apply Hsp, (Cache_Get_record_at (verify_get clk)).
  - left. by rewrite Verify_foreign.
  - left. unfold LocalCodeCache_Verify. by rewrite Hg.
Qed.

(** C4: once [Verify] has answered [(true, nil)] for a key, every later
    [Verify] on that key, with any input code and at any time, answers
    [false] with [ErrUnknownForCode] or [ErrCodeVerifyTooManyTimes], as long
    as no [Set] has issued a new code for that key in between; rejected
    [Set]s, other [Verify]s, calls on other keys and janitor sweeps in
    between change nothing to that.  With no call in between this is the
    immediate duplicate submission. *)
Theorem consumed_never_verifies_again
    (clk : VerifyClock) (biz phone c : string) (items items1 : gmap string Item)
    (ops : list op) (clk' : VerifyClock) (biz' phone' inputCode' : string) :
  LocalCodeCache_Verify clk biz phone c items = ((true, None), items1) →
  no_issue_on (LocalCodeCache_key biz phone) ops items1 = true →
  LocalCodeCache_key biz' phone' = LocalCodeCache_key biz phone →
  let answer :=
    (LocalCodeCache_Verify clk' biz' phone' inputCode' (run ops items1).2).1 in
  answer = (false, Some ErrUnknownForCode) ∨
  answer = (false, Some ErrCodeVerifyTooManyTimes).
Proof.
  intros Hok Hops Hkey answer. unfold answer.
  apply Verify_spent. rewrite Hkey.
  apply run_preserves_spent; [done|].
  apply Verify_true_inv in Hok as (v & _ & _ & _ & _ & ->).
  intros w. rewrite record_at_Cache_Set. intros [= <-]. simpl. lia.
Qed.

Lemma consumed_never_verifies_again_witness :
  let answer :=
    (LocalCodeCache_Verify (VerifyAt (at_second 1031)) "login" "13800000000" "123456"
       (run [OpVerify (VerifyAt (at_second 1030)) "login" "13800000000" "000000";
             OpSet (SetAt (half_past 1030)) "login" "13800000000" "654321";
             OpSweep (at_second 1700);
             OpSet (SetAt (at_second 1701)) "signup" "13800000000" "777777"]
            consumed_early_store).2).1 in
  answer = (false, Some ErrUnknownForCode) ∨
  answer = (false, Some ErrCodeVerifyTooManyTimes).
Proof.
  apply (consumed_never_verifies_again
           (VerifyAt (at_second 1030)) "login" "13800000000" "123456"
           issued_store consumed_early_store).
  - reflexivity.
  - vm_compute. reflexivity.
  - reflexivity.
Defined.

(** ** The attempt counter *)

(** C5: one step of the local backend, from any state of the store (the
    reachable ones among them) and for any key.  A record found under the
    key after the step either was there before with a counter at least as
    large, or was put there by this very step, a [Set] on that key that
    answered [nil], and then its counter is 3.  So along any sequence of
    [Set], [Verify] and sweeps the counter of a key goes up only through a
    [Set] that issues a record. *)
Theorem attempts_never_increase
    (o : op) (items : gmap string Item) (k : string) (v' : localCodeCacheValue) :
  record_at k (step o items).2 = Some v' →
  (∃ v, record_at k items = Some v ∧ times v' ≤ times v) ∨
  (∃ clk biz phone c,
     o = OpSet clk biz phone c ∧ LocalCodeCache_key biz phone = k ∧
     (step o items).1 = RetSet None ∧ times v' = 3).
Proof.
  destruct o as [clk biz phone c|clk biz phone inputCode|now].
  - rewrite step_OpSet. simpl.
    destruct (Set_store_cases clk biz phone c items) as [-> | ->].
    { intros Hv. left. exists v'. split; [done | lia]. }
    simpl. destruct (decide (LocalCodeCache_key biz phone = k)) as [<-|Hne].
    + rewrite record_at_Cache_Set. intros [= <-].
      right. by exists clk, biz, phone, c.
    + rewrite record_at_Cache_Set_ne by done.
      intros Hv. left. exists v'. split; [done | lia].
  - rewrite step_OpVerify_store.
    destruct (Verify_store_cases clk biz phone inputCode items)
      as [-> | (v & w & d & Hg & Hpos & Hle & ->)].
    { intros Hv. left. exists v'. split; [done | lia]. }
    destruct (decide (LocalCodeCache_key biz phone = k)) as [<-|Hne].
    + rewrite record_at_Cache_Set. intros [= <-].
      left. exists v. split; [|done]. by apply (Cache_Get_record_at (verify_get clk)).
    + rewrite record_at_Cache_Set_ne by done.
      intros Hv. left. exists v'. split; [done | lia].
  - simpl. intros Hv%record_at_DeleteExpired.
    left. exists v'. split; [done | lia].
Qed.

Lemma attempts_never_increase_witness :
  (∃ v, record_at (LocalCodeCache_key "login" "13800000000") issued_store = Some v ∧
        2 ≤ times v) ∨
  (∃ clk biz phone c,
     OpVerify (VerifyAt (at_second 1001)) "login" "13800000000" "000000" =
       OpSet clk biz phone c ∧
     LocalCodeCache_key biz phone = LocalCodeCache_key "login" "13800000000" ∧
     (step (OpVerify (VerifyAt (at_second 1001)) "login" "13800000000" "000000")
           issued_store).1 = RetSet None ∧
     2 = 3).
Proof.
  apply (attempts_never_increase
           (OpVerify (VerifyAt (at_second 1001)) "login" "13800000000" "000000")
           issued_store (LocalCodeCache_key "login" "13800000000")
           {| code := "123456"; times := 2; createTime := 1000 |}).
  reflexivity.
Defined.

(** Every store the backend can reach from the empty cache is well formed:
    the type assertions of [Set] and [Verify] never fail there and the
    counters stay between -1 and 3. *)
Lemma step_wf o items : wf_store items → wf_store (step o items).2.
Proof.
  intros Hwf k it. destruct o as [clk biz phone c|clk biz phone inputCode|now].
  - rewrite step_OpSet. simpl.
    destruct (Set_store_cases clk biz phone c items) as [-> | ->]; [apply Hwf|].
    simpl. unfold Cache_Set. rewrite lookup_insert.
    case_decide; [|apply Hwf]. intros [= <-]. simpl. eexists. split; [done|].
    simpl. lia.
  - rewrite step_OpVerify_store. unfold LocalCodeCache_Verify.
    destruct (Cache_Get _ _ items) as [[v|]|] eqn:Hg; simpl; try apply Hwf.
    destruct (times v <=? 0) eqn:Ht; simpl; [apply Hwf|].
    apply Z.leb_gt in Ht.
    apply Cache_Get_Some in Hg as (it0 & Hit0 & _ & Hob).
    destruct (Hwf _ _ Hit0) as (v0 & Hv0 & Hr). rewrite Hob in Hv0.
    injection Hv0 as <-.
    destruct (String.eqb (code v) inputCode); simpl;
      unfold Cache_Set; rewrite lookup_insert;
      (case_decide; [|apply Hwf]); intros [= <-]; simpl;
      (eexists; split; [done|]); simpl; [lia|].
    rewrite dec64_exact by lia. lia.
  - simpl. intros Hit%Cache_DeleteExpired_lookup. by apply (Hwf k).
Qed.

Lemma reachable_wf items : reachable items → wf_store items.
Proof.
  intros [ops <-].
  assert (∀ s, wf_store s → wf_store (run ops s).2) as Hrun.
  { induction ops as [|o ops IH]; intros s Hs; [done|].
    simpl. pose proof (step_wf o s Hs) as Hs'.
    destruct (step o s) as [r s']. specialize (IH s' Hs').
    by destruct (run ops s') as [rs s'']. }
  apply Hrun. intros k it. by rewrite lookup_empty.
Qed.

(** ** Set while a consumed record is still stored *)

(** The code is issued at second 1000 and verified at second 1100.  Half a
    second later the consumed record, counter -1, is still returned by
    [Get], and yet [Set] answers [nil] and issues the new code: the record
    is older than 60 seconds. *)
Lemma Set_in_residual_window_can_issue :
  LocalCodeCache_Verify (VerifyAt (at_second 1100)) "login" "13800000000" "123456"
      issued_store = ((true, None), consumed_store) ∧
  Cache_Get (half_past 1100) (LocalCodeCache_key "login" "13800000000") consumed_store =
    Some (PtrCodeValue {| code := "123456"; times := -1; createTime := 1000 |}) ∧
  LocalCodeCache_Set (SetAt (half_past 1100)) "login" "13800000000" "654321"
      consumed_store =
    (None,
     {[ LocalCodeCache_key "login" "13800000000" :=
          {| Object := PtrCodeValue {| code := "654321"; times := 3; createTime := 1100 |};
             Expiration := half_past 1400 |} ]}) ∧
  (LocalCodeCache_Set (SetAt (half_past 1100)) "login" "13800000000" "654321"
      consumed_store).1 ≠ Some ErrCodeSendTooMany.
Proof.
  split; [reflexivity |]. split; [reflexivity |].
  split; [vm_compute; reflexivity |]. vm_compute. discriminate.
Qed.

(** C9, amended: while the record consumed by a successful [Verify] is
    still returned by [Get], it carries the sentinel -1, and [Set] treats it
    like any other record: it answers [ErrCodeSendTooMany], changing
    nothing, when the clock is less than 60 Unix seconds past the record's
    issuance, and issues the new code otherwise.  The counter plays no part
    in the decision. *)
Theorem Set_in_residual_window
    (clkV : VerifyClock) (clkS : SetClock) (biz phone c c' : string)
    (items items1 : gmap string Item) (v : localCodeCacheValue) :
  let key := LocalCodeCache_key biz phone in
  LocalCodeCache_Verify clkV biz phone c items = ((true, None), items1) →
  Cache_Get (set_get clkS) key items1 = Some (PtrCodeValue v) →
  Go.int64_range (Go.Unix (set_check clkS) - createTime v) →
  times v = -1 ∧
  (Go.Unix (set_check clkS) - createTime v < 60 →
   LocalCodeCache_Set clkS biz phone c' items1 = (Some ErrCodeSendTooMany, items1)) ∧
  (60 ≤ Go.Unix (set_check clkS) - createTime v →
   LocalCodeCache_Set clkS biz phone c' items1 =
     (None,
      <[key := {| Object := PtrCodeValue
                    {| code := c'; times := 3;
                       createTime := Go.Unix (set_create clkS) |};
                  Expiration := Go.UnixNano (Go.Add (set_put clkS) (Go.Minute * 5)) |}]>
        items1)).
Proof.
  intros key Hok Hg Hr.
  pose proof Hok as (v0 & _ & _ & _ & _ & Hs)%Verify_true_inv.
  split_and!.
  - apply Cache_Get_record_at in Hg. rewrite Hs in Hg.
    rewrite record_at_Cache_Set in Hg. by injection Hg as <-.
  - intros Hlt. apply (Set_cooldown _ _ _ _ _ v); [done|].
    unfold Go.sub64. by rewrite wrap64_id.
  - intros Hge. rewrite (Set_elapsed _ _ _ _ _ v); [done | done |].
    unfold Go.sub64. by rewrite wrap64_id.
Qed.

Lemma Set_in_residual_window_witness :
  -1 = -1 ∧
  (30 < 60 →
   LocalCodeCache_Set (SetAt (half_past 1030)) "login" "13800000000" "654321"
       consumed_early_store =
     (Some ErrCodeSendTooMany, consumed_early_store)) ∧
  (60 ≤ 30 →
   LocalCodeCache_Set (SetAt (half_past 1030)) "login" "13800000000" "654321"
       consumed_early_store =
     (None,
      <[LocalCodeCache_key "login" "13800000000" :=
          {| Object := PtrCodeValue {| code := "654321"; times := 3;
                                       createTime := Go.Unix (half_past 1030) |};
             Expiration := Go.UnixNano (Go.Add (half_past 1030) (Go.Minute * 5)) |}]>
        consumed_early_store)).
Proof.
  apply (Set_in_residual_window
           (VerifyAt (at_second 1030)) (SetAt (half_past 1030))
           "login" "13800000000" "123456" "654321"
           issued_store consumed_early_store
           {| code := "123456"; times := -1; createTime := 1000 |}).
  - reflexivity.
  - reflexivity.
  - change (Go.int64_range 30). unfold Go.int64_range. lia.
Defined.

(** * Further properties of the local backend *)

Lemma Verify_not_found clk biz phone inputCode items :
  Cache_Get (verify_get clk) (LocalCodeCache_key biz phone) items = None →
  LocalCodeCache_Verify clk biz phone inputCode items =
    ((false, Some ErrUnknownForCode), items).
Proof. intros H. unfold LocalCodeCache_Verify. by rewrite H. Qed.

(** ** When Verify says yes *)

(** X1: [LocalCodeCache.Verify] answers [true] exactly when [Get] returns a
    record of the key that has attempts left and whose code is the input;
    it never does so for an expired, exhausted, consumed or different
    code, and a [true] always comes with a [nil] error. *)
Theorem Verify_true_iff
    (clk : VerifyClock) (biz phone inputCode : string) (items : gmap string Item) :
  ((LocalCodeCache_Verify clk biz phone inputCode items).1.1 = true ↔
   ∃ v, Cache_Get (verify_get clk) (LocalCodeCache_key biz phone) items =
          Some (PtrCodeValue v) ∧
        0 < times v ∧ code v = inputCode) ∧
  ((LocalCodeCache_Verify clk biz phone inputCode items).1.1 = true →
   (LocalCodeCache_Verify clk biz phone inputCode items).1.2 = None).
Proof.
  split; [split|].
  - destruct (LocalCodeCache_Verify clk biz phone inputCode items)
      as [[ok err] items'] eqn:HV.
    cbn [fst]. intros ->.
    apply Verify_true_inv in HV as (v & Hg & Hpos & Hc & _). eauto.
  - intros (v & Hg & Hpos & Hc). by rewrite (Verify_match _ _ _ _ _ v).
  - destruct (LocalCodeCache_Verify clk biz phone inputCode items)
      as [[ok err] items'] eqn:HV.
    cbn [fst snd]. intros ->.
    by apply Verify_true_inv in HV as (v & _ & _ & _ & -> & _).
Qed.

(** ** Issue, then verify *)

(** X2: After a [Set] that answered [nil], whatever the key held before, a
    [Verify] that finds the new record alive answers [(true, nil)] for the
    code just issued and [(false, ErrUnknownForCode)] for every other
    input. *)
Theorem Set_then_Verify
    (clk0 : SetClock) (clk1 : VerifyClock) (biz phone c inputCode : string)
    (items : gmap string Item) :
  (LocalCodeCache_Set clk0 biz phone c items).1 = None →
  within_lifetime (set_put clk0) (verify_get clk1) →
  (LocalCodeCache_Verify clk1 biz phone inputCode
     (LocalCodeCache_Set clk0 biz phone c items).2).1 =
  if decide (inputCode = c) then (true, None)
  else (false, Some ErrUnknownForCode).
Proof.
  intros Hset Hlife. rewrite (Set_nil_inv _ _ _ _ _ Hset). cbn [snd].
  pose proof (Cache_Get_within_lifetime _ _ (LocalCodeCache_key biz phone)
                (PtrCodeValue (getValue (set_create clk0) c)) items Hlife) as Hg.
  case_decide as Hc.
  - subst. by rewrite (Verify_match _ _ _ _ _ _ Hg); [| simpl; lia |].
  - rewrite (Verify_mismatch _ _ _ _ _ _ Hg); [done | simpl; lia | simpl; congruence].
Qed.

Lemma Set_then_Verify_witness :
  (LocalCodeCache_Verify (VerifyAt (at_second 1001)) "login" "13800000000" "123456"
     (LocalCodeCache_Set (SetAt (at_second 1000)) "login" "13800000000" "123456" ∅).2).1 =
  (true, None).
Proof.
  rewrite (Set_then_Verify (SetAt (at_second 1000)) (VerifyAt (at_second 1001))
             "login" "13800000000" "123456" "123456" ∅).
  - reflexivity.
  - reflexivity.
  - unfold within_lifetime, at_second, Go.Minute, Go.Second. simpl. lia.
Defined.

(** ** The second after a successful Verify *)

(** X3: A successful [Verify] leaves the consumed record in the store for one
    second counted from its write: a further [Verify] of the key, with any
    input, answers [ErrCodeVerifyTooManyTimes] up to and including that
    instant and [ErrUnknownForCode] after it, and changes nothing. *)
Theorem consumed_record_residual_second
    (clk clk' : VerifyClock) (biz phone c inputCode : string)
    (items items1 : gmap string Item) :
  LocalCodeCache_Verify clk biz phone c items = ((true, None), items1) →
  0 < verify_put clk → verify_put clk + Go.Second < 2 ^ 63 →
  0 ≤ verify_get clk' < 2 ^ 63 →
  LocalCodeCache_Verify clk' biz phone inputCode items1 =
  if verify_put clk + Go.Second <? verify_get clk'
  then ((false, Some ErrUnknownForCode), items1)
  else ((false, Some ErrCodeVerifyTooManyTimes), items1).
Proof.
  intros Hok Hput Hend Ht.
  apply Verify_true_inv in Hok as (v & _ & _ & _ & _ & ->).
  set (w := {| code := code v; times := -1; createTime := createTime v |}).
  assert (Cache_Get (verify_get clk') (LocalCodeCache_key biz phone)
            (Cache_Set (verify_put clk) (LocalCodeCache_key biz phone)
               (PtrCodeValue w) Go.Second items) =
          if verify_put clk + Go.Second <? verify_get clk'
          then None else Some (PtrCodeValue w)) as Hg.
  { apply Cache_Set_lifetime; unfold Go.Second in *; lia. }
  destruct (verify_put clk + Go.Second <? verify_get clk').
  - by apply Verify_not_found.
  - apply (Verify_exhausted _ _ _ _ _ w); [done | simpl; lia].
Qed.

Lemma consumed_record_residual_second_witness :
  LocalCodeCache_Verify (VerifyAt (at_second 1031)) "login" "13800000000" "123456"
      consumed_early_store =
    ((false, Some ErrCodeVerifyTooManyTimes), consumed_early_store) ∧
  LocalCodeCache_Verify (VerifyAt (half_past 1031)) "login" "13800000000" "123456"
      consumed_early_store =
    ((false, Some ErrUnknownForCode), consumed_early_store).
Proof.
  split.
  - rewrite (consumed_record_residual_second
               (VerifyAt (at_second 1030)) (VerifyAt (at_second 1031))
               "login" "13800000000" "123456" "123456"
               issued_store consumed_early_store).
    + reflexivity.
    + reflexivity.
    + reflexivity.
    + reflexivity.
    + unfold VerifyAt, at_second, Go.Second. simpl. lia.
  - rewrite (consumed_record_residual_second
               (VerifyAt (at_second 1030)) (VerifyAt (half_past 1031))
               "login" "13800000000" "123456" "123456"
               issued_store consumed_early_store).
    + reflexivity.
    + reflexivity.
    + reflexivity.
    + reflexivity.
    + unfold VerifyAt, half_past, at_second, Go.Second. simpl. lia.
Defined.

(** ** What Verify and Set leave alone *)

(** X5: A call on one key changes no entry stored under another key. *)
Theorem other_keys_untouched
    (biz phone : string) (items : gmap string Item) (k' : string) :
  k' ≠ LocalCodeCache_key biz phone →
  (∀ clk c, (LocalCodeCache_Set clk biz phone c items).2 !! k' = items !! k') ∧
  (∀ clk inputCode,
     (LocalCodeCache_Verify clk biz phone inputCode items).2 !! k' = items !! k').
Proof.
  intros Hne. split.
  - intros clk c.
    destruct (Set_store_cases clk biz phone c items) as [-> | ->]; [done|].
    cbn [snd]. by rewrite Cache_Set_lookup_ne.
  - intros clk inputCode.
    destruct (Verify_store_cases clk biz phone inputCode items)
      as [-> | (v & w & d & _ & _ & _ & ->)]; [done|].
    by rewrite Cache_Set_lookup_ne.
Qed.

Lemma other_keys_untouched_witness :
  (∀ clk c,
     (LocalCodeCache_Set clk "signup" "13800000000" c issued_store).2
       !! LocalCodeCache_key "login" "13800000000" =
     issued_store !! LocalCodeCache_key "login" "13800000000") ∧
  (∀ clk inputCode,
     (LocalCodeCache_Verify clk "signup" "13800000000" inputCode issued_store).2
       !! LocalCodeCache_key "login" "13800000000" =
     issued_store !! LocalCodeCache_key "login" "13800000000").
Proof.
  apply (other_keys_untouched "signup" "13800000000" issued_store
           (LocalCodeCache_key "login" "13800000000")).
  discriminate.
Defined.

(** X6: [Verify] never changes the code or the issuance time of a record: a
    record found under any key after the call was there before with the
    same code and the same [createTime].  Only the counter and the expiry
    move, so wrong attempts do not postpone the end of the cooldown. *)
Theorem Verify_keeps_code_and_createTime
    (clk : VerifyClock) (biz phone inputCode : string) (items : gmap string Item)
    (k : string) (v' : localCodeCacheValue) :
  record_at k (LocalCodeCache_Verify clk biz phone inputCode items).2 = Some v' →
  ∃ v, record_at k items = Some v ∧
       code v' = code v ∧ createTime v' = createTime v.
Proof.
  unfold LocalCodeCache_Verify.
  destruct (Cache_Get _ _ items) as [[v|]|] eqn:Hg; cbn [snd]; eauto.
  destruct (times v <=? 0); cbn [snd]; eauto.
  apply Cache_Get_record_at in Hg.
  destruct (negb _); cbn [snd];
    (destruct (decide (LocalCodeCache_key biz phone = k)) as [<-|Hne];
     [ rewrite record_at_Cache_Set; intros [= <-]; eauto
     | rewrite record_at_Cache_Set_ne by done; eauto ]).
Qed.

Lemma Verify_keeps_code_and_createTime_witness :
  ∃ v, record_at (LocalCodeCache_key "login" "13800000000") issued_store = Some v ∧
       "123456" = code v ∧ 1000 = createTime v.
Proof.
  apply (Verify_keeps_code_and_createTime
           (VerifyAt (at_second 1001)) "login" "13800000000" "000000" issued_store
           (LocalCodeCache_key "login" "13800000000")
           {| code := "123456"; times := 2; createTime := 1000 |}).
  reflexivity.
Defined.

(** X7: A wrong attempt gives the record a new five-minute lifetime counted from
    the attempt, whatever expiry it had: it is returned by [Get], one
    attempt poorer, until five minutes after the write of that [Verify]. *)
Theorem wrong_code_renews_lifetime
    (clk : VerifyClock) (biz phone inputCode : string) (items : gmap string Item)
    (v : localCodeCacheValue) (t : Go.Time) :
  Cache_Get (verify_get clk) (LocalCodeCache_key biz phone) items =
    Some (PtrCodeValue v) →
  0 < times v < 2 ^ 63 →
  code v ≠ inputCode →
  0 < verify_put clk → verify_put clk + Go.Minute * 5 < 2 ^ 63 → 0 ≤ t < 2 ^ 63 →
  Cache_Get t (LocalCodeCache_key biz phone)
    (LocalCodeCache_Verify clk biz phone inputCode items).2 =
  if verify_put clk + Go.Minute * 5 <? t then None
  else Some (PtrCodeValue {| code := code v; times := times v - 1;
                             createTime := createTime v |}).
Proof.
  intros Hg [Hpos Hmax] Hc Hput Hend Ht.
  rewrite (Verify_mismatch _ _ _ _ _ v) by done. cbn [snd].
  rewrite dec64_exact by done.
  apply Cache_Set_lifetime; unfold Go.Minute, Go.Second in *; lia.
Qed.

Lemma wrong_code_renews_lifetime_witness :
  Cache_Get (at_second 1500) (LocalCodeCache_key "login" "13800000000")
    (LocalCodeCache_Verify (VerifyAt (at_second 1299)) "login" "13800000000" "000000"
       issued_store).2 =
  Some (PtrCodeValue {| code := "123456"; times := 2; createTime := 1000 |}).
Proof.
  rewrite (wrong_code_renews_lifetime
             (VerifyAt (at_second 1299)) "login" "13800000000" "000000" issued_store
             {| code := "123456"; times := 3; createTime := 1000 |}
             (at_second 1500)).
  - reflexivity.
  - reflexivity.
  - simpl. lia.
  - discriminate.
  - reflexivity.
  - reflexivity.
  - unfold at_second, Go.Second. lia.
Defined.

(** ** The janitor *)

Lemma Expired_mono now t it :
  0 ≤ now → now ≤ t → t < 2 ^ 63 →
  Expired now it = true → Expired t it = true.
Proof.
  unfold Expired, Go.UnixNano. intros H0 Hle Hmax.
  rewrite !wrap64_id by (unfold Go.int64_range; lia).
  intros [H1 H2]%andb_true_iff. apply andb_true_iff. lia.
Qed.

Lemma Cache_Get_DeleteExpired now t k items :
  0 ≤ now → now ≤ t → t < 2 ^ 63 →
  Cache_Get t k (Cache_DeleteExpired now items) = Cache_Get t k items.
Proof.
  intros H0 Hle Hmax. unfold Cache_Get, Cache_DeleteExpired.
  destruct (items !! k) as [it|] eqn:Hit.
  - destruct (Expired now it) eqn:He.
    + assert (filter (λ kv, Expired now kv.2 = false) items !! k = None) as ->.
      { apply map_lookup_filter_None. right. intros x Hx. simpl.
        rewrite Hit in Hx. injection Hx as <-. by rewrite He. }
      by rewrite (Expired_mono now t it).
    + assert (filter (λ kv, Expired now kv.2 = false) items !! k = Some it) as ->.
      { by apply map_lookup_filter_Some. }
      done.
  - assert (filter (λ kv, Expired now kv.2 = false) items !! k = None) as ->.
    { apply map_lookup_filter_None. by left. }
    done.
Qed.

Lemma Verify_answer_by_Get clk biz phone inputCode items items' :
  Cache_Get (verify_get clk) (LocalCodeCache_key biz phone) items =
  Cache_Get (verify_get clk) (LocalCodeCache_key biz phone) items' →
  (LocalCodeCache_Verify clk biz phone inputCode items).1 =
  (LocalCodeCache_Verify clk biz phone inputCode items').1.
Proof.
  intros H. unfold LocalCodeCache_Verify. rewrite H.
  destruct (Cache_Get _ _ items') as [[v|]|]; try done.
  destruct (times v <=? 0); [done|]. by destruct (negb _).
Qed.

Lemma Set_answer_by_Get clk biz phone c items items' :
  Cache_Get (set_get clk) (LocalCodeCache_key biz phone) items =
  Cache_Get (set_get clk) (LocalCodeCache_key biz phone) items' →
  (LocalCodeCache_Set clk biz phone c items).1 =
  (LocalCodeCache_Set clk biz phone c items').1.
Proof.
  intros H. unfold LocalCodeCache_Set. rewrite H.
  destruct (Cache_Get _ _ items') as [[v|]|]; try done.
  by destruct (Go.sub64 _ _ <? 60).
Qed.

(** X8: A sweep of the janitor is invisible to the callers: with a clock that
    does not run backwards (and stays within [int64] nanoseconds), [Set]
    and [Verify] answer after a sweep what they would have answered without
    it. *)
Theorem sweep_is_unobservable
    (now : Go.Time) (biz phone : string) (items : gmap string Item) :
  0 ≤ now →
  (∀ clk c, now ≤ set_get clk < 2 ^ 63 →
     (LocalCodeCache_Set clk biz phone c (Cache_DeleteExpired now items)).1 =
     (LocalCodeCache_Set clk biz phone c items).1) ∧
  (∀ clk inputCode, now ≤ verify_get clk < 2 ^ 63 →
     (LocalCodeCache_Verify clk biz phone inputCode (Cache_DeleteExpired now items)).1 =
     (LocalCodeCache_Verify clk biz phone inputCode items).1).
Proof.
  intros H0. split.
  - intros clk c [Hle Hmax]. apply Set_answer_by_Get.
    by apply Cache_Get_DeleteExpired.
  - intros clk inputCode [Hle Hmax]. apply Verify_answer_by_Get.
    by apply Cache_Get_DeleteExpired.
Qed.

Lemma sweep_is_unobservable_witness :
  (∀ clk c, at_second 1200 ≤ set_get clk < 2 ^ 63 →
     (LocalCodeCache_Set clk "login" "13800000000" c
        (Cache_DeleteExpired (at_second 1200) consumed_store)).1 =
     (LocalCodeCache_Set clk "login" "13800000000" c consumed_store).1) ∧
  (∀ clk inputCode, at_second 1200 ≤ verify_get clk < 2 ^ 63 →
     (LocalCodeCache_Verify clk "login" "13800000000" inputCode
        (Cache_DeleteExpired (at_second 1200) consumed_store)).1 =
     (LocalCodeCache_Verify clk "login" "13800000000" inputCode consumed_store).1).
Proof.
  apply (sweep_is_unobservable (at_second 1200) "login" "13800000000" consumed_store).
  unfold at_second, Go.Second. lia.
Defined.

(** ** Stores reached from NewCodeCache() *)

(** X9: In every store the backend reaches from the empty cache, each entry is
    a record of this package whose counter is -1, 0, 1, 2 or 3; the type
    assertions of [Set] and [Verify] cannot fail there, and [Set] answers
    [nil] or [ErrCodeSendTooMany], never [ErrUnknownForCode]. *)
Theorem reachable_store_sound (items : gmap string Item) :
  reachable items →
  (∀ k it, items !! k = Some it →
     ∃ v, Object it = PtrCodeValue v ∧ -1 ≤ times v ≤ 3) ∧
  (∀ t k, Cache_Get t k items ≠ Some Foreign) ∧
  (∀ clk biz phone c,
     (LocalCodeCache_Set clk biz phone c items).1 = None ∨
     (LocalCodeCache_Set clk biz phone c items).1 = Some ErrCodeSendTooMany).
Proof.
  intros Hwf%reachable_wf.
  assert (∀ t k, Cache_Get t k items ≠ Some Foreign) as Hnf.
  { intros t k (it & Hit & _ & Hob)%Cache_Get_Some.
    destruct (Hwf _ _ Hit) as (v & Hv & _). congruence. }
  split_and!; [exact Hwf | exact Hnf |].
  intros clk biz phone c. unfold LocalCodeCache_Set.
  destruct (Cache_Get _ _ items) as [[v|]|] eqn:Hg; cbn [fst]; auto.
  - destruct (Go.sub64 _ _ <? 60); cbn [fst]; auto.
  - by apply Hnf in Hg.
Qed.

Lemma reachable_store_sound_witness :
  (∀ k it, consumed_store !! k = Some it →
     ∃ v, Object it = PtrCodeValue v ∧ -1 ≤ times v ≤ 3) ∧
  (∀ t k, Cache_Get t k consumed_store ≠ Some Foreign) ∧
  (∀ clk biz phone c,
     (LocalCodeCache_Set clk biz phone c consumed_store).1 = None ∨
     (LocalCodeCache_Set clk biz phone c consumed_store).1 = Some ErrCodeSendTooMany).
Proof.
  apply (reachable_store_sound consumed_store).
  exists [OpSet (SetAt (at_second 1000)) "login" "13800000000" "123456";
          OpVerify (VerifyAt (at_second 1100)) "login" "13800000000" "123456"].
  reflexivity.
Defined.

(** ** When the key scheme is injective *)

Lemma has_colon_app_sep b p : has_colon (b +:+ String ":" p) = true.
Proof.
  induction b as [|c b IH]; [reflexivity|].
  change (Ascii.eqb c ":" || has_colon (b +:+ String ":" p) = true).
  rewrite IH. apply orb_true_r.
Qed.

Lemma has_colon_cons_false c s :
  has_colon (String c s) = false → c ≠ ":"%char ∧ has_colon s = false.
Proof.
  cbn [has_colon]. intros [Hc Hs]%orb_false_iff. split; [|done].
  by apply Ascii.eqb_neq.
Qed.

Lemma sep_inj_business b1 p1 b2 p2 :
  has_colon b1 = false → has_colon b2 = false →
  b1 +:+ String ":" p1 = b2 +:+ String ":" p2 → b1 = b2 ∧ p1 = p2.
Proof.
  revert b2. induction b1 as [|c1 b1 IH]; intros [|c2 b2] H1 H2.
  - by intros [= ->].
  - apply has_colon_cons_false in H2 as [Hc _].
    change (String ":" p1 = String c2 (b2 +:+ String ":" p2) → "" = String c2 b2 ∧ p1 = p2).
    intros [= <- _]. done.
  - apply has_colon_cons_false in H1 as [Hc _].
    change (String c1 (b1 +:+ String ":" p1) = String ":" p2 → String c1 b1 = "" ∧ p1 = p2).
    intros [= -> _]. done.
  - apply has_colon_cons_false in H1 as [_ H1].
    apply has_colon_cons_false in H2 as [_ H2].
    change (String c1 (b1 +:+ String ":" p1) = String c2 (b2 +:+ String ":" p2) →
            String c1 b1 = String c2 b2 ∧ p1 = p2).
    intros [= -> Heq]. destruct (IH b2 H1 H2 Heq) as [-> ->]. done.
Qed.

Lemma sep_inj_phone b1 p1 b2 p2 :
  has_colon p1 = false → has_colon p2 = false →
  b1 +:+ String ":" p1 = b2 +:+ String ":" p2 → b1 = b2 ∧ p1 = p2.
Proof.
  intros H1 H2. revert b2. induction b1 as [|c1 b1 IH]; intros [|c2 b2].
  - by intros [= ->].
  - change (String ":" p1 = String c2 (b2 +:+ String ":" p2) → "" = String c2 b2 ∧ p1 = p2).
    intros [= _ ->]. by rewrite has_colon_app_sep in H1.
  - change (String c1 (b1 +:+ String ":" p1) = String ":" p2 → String c1 b1 = "" ∧ p1 = p2).
    intros [= _ <-]. by rewrite has_colon_app_sep in H2.
  - change (String c1 (b1 +:+ String ":" p1) = String c2 (b2 +:+ String ":" p2) →
            String c1 b1 = String c2 b2 ∧ p1 = p2).
    intros [= -> Heq]. destruct (IH b2 Heq) as [-> ->]. done.
Qed.

(** X10: Two (business, phone) pairs get the same key only if they are the same
    pair, provided neither business contains [:] or neither phone does. *)
Theorem key_injective_without_colon (biz1 phone1 biz2 phone2 : string) :
  (has_colon biz1 = false ∧ has_colon biz2 = false) ∨
  (has_colon phone1 = false ∧ has_colon phone2 = false) →
  LocalCodeCache_key biz1 phone1 = LocalCodeCache_key biz2 phone2 →
  biz1 = biz2 ∧ phone1 = phone2.
Proof.
  intros Hc. rewrite !LocalCodeCache_key_unfold.
  change ("phone_code:" +:+ biz1 +:+ ":" +:+ phone1)
    with ("phone_code:" +:+ (biz1 +:+ String ":" phone1)).
  change ("phone_code:" +:+ biz2 +:+ ":" +:+ phone2)
    with ("phone_code:" +:+ (biz2 +:+ String ":" phone2)).
  intros Heq. injection Heq as Heq.
  destruct Hc as [[H1 H2] | [H1 H2]].
  - by apply sep_inj_business.
  - by apply sep_inj_phone.
Qed.

Lemma key_injective_without_colon_witness :
  "a:b" = "a:b" ∧ "13800000000" = "13800000000".
Proof.
  apply (key_injective_without_colon "a:b" "13800000000" "a:b" "13800000000").
  - right. split; reflexivity.
  - reflexivity.
Defined.

(** ** The cooldown in real time *)

Lemma Unix_diff_bounds t0 t1 :
  (60 ≤ Go.Unix t1 - Go.Unix t0 → 59 * Go.Second < t1 - t0) ∧
  (Go.Unix t1 - Go.Unix t0 < 60 → t1 - t0 < 60 * Go.Second).
Proof.
  unfold Go.Unix, Go.Second.
  pose proof (Z.div_mod t0 1000000000 ltac:(lia)) as E0.
  pose proof (Z.div_mod t1 1000000000 ltac:(lia)) as E1.
  pose proof (Z.mod_pos_bound t0 1000000000 ltac:(lia)) as B0.
  pose proof (Z.mod_pos_bound t1 1000000000 ltac:(lia)) as B1.
  split; intros H; lia.
Qed.

(** X11: The cooldown test works on whole Unix seconds.  For a record issued
    when the clock read [t0] and still returned by [Get]: a [Set] that
    answers [nil] comes more than 59 seconds after [t0], and a [Set] that
    answers [ErrCodeSendTooMany] comes less than 60 seconds after it. *)
Theorem cooldown_in_nanoseconds
    (clk : SetClock) (biz phone c : string) (items : gmap string Item)
    (v : localCodeCacheValue) (t0 : Go.Time) :
  Cache_Get (set_get clk) (LocalCodeCache_key biz phone) items =
    Some (PtrCodeValue v) →
  createTime v = Go.Unix t0 →
  Go.int64_range (Go.Unix (set_check clk) - Go.Unix t0) →
  ((LocalCodeCache_Set clk biz phone c items).1 = None →
   59 * Go.Second < set_check clk - t0) ∧
  ((LocalCodeCache_Set clk biz phone c items).1 = Some ErrCodeSendTooMany →
   set_check clk - t0 < 60 * Go.Second).
Proof.
  intros Hg Hct Hr. unfold LocalCodeCache_Set. rewrite Hg, Hct.
  unfold Go.sub64. rewrite wrap64_id by done.
  destruct (Unix_diff_bounds t0 (set_check clk)) as [Hlo Hhi].
  destruct (Go.Unix (set_check clk) - Go.Unix t0 <? 60) eqn:Hlt; cbn [fst].
  - apply Z.ltb_lt in Hlt. split; [done | auto].
  - apply Z.ltb_ge in Hlt. split; [auto | done].
Qed.

Lemma cooldown_in_nanoseconds_witness :
  ((LocalCodeCache_Set (SetAt (at_second 1060)) "login" "13800000000" "654321"
      (LocalCodeCache_Set (SetAt (at_second 1000 + 999999999))
         "login" "13800000000" "123456" ∅).2).1 = None →
   59 * Go.Second < at_second 1060 - (at_second 1000 + 999999999)) ∧
  ((LocalCodeCache_Set (SetAt (at_second 1060)) "login" "13800000000" "654321"
      (LocalCodeCache_Set (SetAt (at_second 1000 + 999999999))
         "login" "13800000000" "123456" ∅).2).1 = Some ErrCodeSendTooMany →
   at_second 1060 - (at_second 1000 + 999999999) < 60 * Go.Second).
Proof.
  apply (cooldown_in_nanoseconds
           (SetAt (at_second 1060)) "login" "13800000000" "654321"
           (LocalCodeCache_Set (SetAt (at_second 1000 + 999999999))
              "login" "13800000000" "123456" ∅).2
           {| code := "123456"; times := 3; createTime := 1000 |}
           (at_second 1000 + 999999999)).
  - reflexivity.
  - reflexivity.
  - change (Go.int64_range 60). unfold Go.int64_range. lia.
Defined.

(** * Further properties of the shared backend *)

(** X12: [RedisCodeCache.Set] hands back the store exactly as the script left
    it, passes a client error through unchanged, answers [nil] only when the
    script answered 0 without error, [ErrCodeSendTooMany] for -1, and the
    system error for every other answer. *)
Theorem RedisCodeCache_Set_answers
    (Redis : Type)
    (Eval : string → string → Redis → (Z * option error) * Redis)
    (biz phone c : string) (s : Redis) :
  let script := Eval (RedisCodeCache_key biz phone) c s in
  let set := RedisCodeCache_Set Eval biz phone c s in
  set.2 = script.2 ∧
  (∀ e, script.1.2 = Some e → set.1 = Some e) ∧
  (set.1 = None ↔ script.1 = (0, None)) ∧
  (script.1 = (-1, None) → set.1 = Some ErrCodeSendTooMany) ∧
  (script.1.2 = None → script.1.1 ≠ 0 → script.1.1 ≠ -1 → set.1 = Some ErrSystem).
Proof.
  intros script set. subst set. unfold RedisCodeCache_Set. fold script.
  destruct script as [[res [e|]] s']; cbn [fst snd].
  { split_and!; try (split; intros); intros; simplify_eq; done. }
  destruct (Z.eqb_spec res 0) as [->|H0]; cbn [fst snd].
  { split_and!; try (split; intros); intros; simplify_eq; done. }
  destruct (Z.eqb_spec res (-1)) as [->|H1]; cbn [fst snd].
  { split_and!; try (split; intros); intros; simplify_eq; done. }
  split_and!; try (split; intros); intros; simplify_eq; done.
Qed.

Lemma RedisCodeCache_Set_answers_witness :
  RedisCodeCache_Set (λ _ _ (s : unit), ((-5, None), s))
    "login" "13800000000" "123456" () = (Some ErrSystem, ()).
Proof.
  pose proof (RedisCodeCache_Set_answers unit (λ _ _ (s : unit), ((-5, None), s))
                "login" "13800000000" "123456" ()) as (_ & _ & _ & _ & Hsys).
  apply injective_projections; [| reflexivity].
  apply Hsys; [reflexivity | discriminate | discriminate].
Defined.

(** X13: [RedisCodeCache.Verify] hands back the store exactly as the script left
    it and passes a client error through with verdict [false].  It answers
    [true] only when the script answered 0 without error, never pairs
    [true] with an error, and answers [ErrUnknownForCode] for every script
    answer other than 0, -1 and -2. *)
Theorem RedisCodeCache_Verify_answers
    (Redis : Type)
    (Eval : string → string → Redis → (Z * option error) * Redis)
    (biz phone inputCode : string) (s : Redis) :
  let script := Eval (RedisCodeCache_key biz phone) inputCode s in
  let verify := RedisCodeCache_Verify Eval biz phone inputCode s in
  verify.2 = script.2 ∧
  (∀ e, script.1.2 = Some e → verify.1 = (false, Some e)) ∧
  (verify.1.1 = true ↔ script.1 = (0, None)) ∧
  (verify.1.1 = true → verify.1.2 = None) ∧
  (script.1.2 = None → script.1.1 ≠ 0 → script.1.1 ≠ -1 → script.1.1 ≠ -2 →
   verify.1 = (false, Some ErrUnknownForCode)).
Proof.
  intros script verify. subst verify. unfold RedisCodeCache_Verify. fold script.
  destruct script as [[res [e|]] s']; cbn [fst snd].
  { split_and!; try (split; intros); intros; simplify_eq; done. }
  destruct (Z.eqb_spec res 0) as [->|H0]; cbn [fst snd].
  { split_and!; try (split; intros); intros; simplify_eq; done. }
  destruct (Z.eqb_spec res (-1)) as [->|H1]; cbn [fst snd].
  { split_and!; try (split; intros); intros; simplify_eq; done. }
  destruct (Z.eqb_spec res (-2)) as [->|H2]; cbn [fst snd].
  { split_and!; try (split; intros); intros; simplify_eq; done. }
  split_and!; try (split; intros); intros; simplify_eq; done.
Qed.

Lemma RedisCodeCache_Verify_answers_witness :
  RedisCodeCache_Verify (λ _ _ (s : unit), ((7, None), s))
    "login" "13800000000" "123456" () = ((false, Some ErrUnknownForCode), ()).
Proof.
  pose proof (RedisCodeCache_Verify_answers unit (λ _ _ (s : unit), ((7, None), s))
                "login" "13800000000" "123456" ()) as (_ & _ & _ & _ & Hunk).
  apply injective_projections; [| reflexivity].
  apply Hunk; [reflexivity | discriminate | discriminate | discriminate].
Defined.

(** * Re-issuing after a successful Verify (local backend) *)

Lemma Verify_true_iff_witness :
  (LocalCodeCache_Verify (VerifyAt (at_second 1001)) "login" "13800000000" "123456"
     issued_store).1.1 = true.
Proof.
  apply (proj1 (Verify_true_iff (VerifyAt (at_second 1001))
                  "login" "13800000000" "123456" issued_store)).
  exists {| code := "123456"; times := 3; createTime := 1000 |}.
  split; [reflexivity |]. split; [simpl; lia | reflexivity].
Defined.

(** X4: A successful [Verify] ends the cooldown one second later: once the
    consumed record has expired, [Set] issues a new code for the key even
    if the old one was issued less than 60 seconds ago. *)
Theorem Set_after_residual_second
    (clk : VerifyClock) (clkS : SetClock) (biz phone c c' : string)
    (items items1 : gmap string Item) :
  LocalCodeCache_Verify clk biz phone c items = ((true, None), items1) →
  0 < verify_put clk →
  verify_put clk + Go.Second < set_get clkS < 2 ^ 63 →
  LocalCodeCache_Set clkS biz phone c' items1 =
    (None,
     <[LocalCodeCache_key biz phone :=
         {| Object := PtrCodeValue {| code := c'; times := 3;
                                      createTime := Go.Unix (set_create clkS) |};
            Expiration := Go.UnixNano (Go.Add (set_put clkS) (Go.Minute * 5)) |}]>
       items1).
Proof.
  intros Hok Hput [Hlate Hmax].
  apply Verify_true_inv in Hok as (v & _ & _ & _ & _ & ->).
  rewrite Set_no_record; [done|].
  rewrite Cache_Set_lifetime by (unfold Go.Second in *; lia).
  by rewrite (proj2 (Z.ltb_lt _ _) Hlate).
Qed.

Lemma Set_after_residual_second_witness :
  (LocalCodeCache_Set (SetAt (half_past 1031)) "login" "13800000000" "654321"
     consumed_early_store).1 = None.
Proof.
  rewrite (Set_after_residual_second
             (VerifyAt (at_second 1030)) (SetAt (half_past 1031))
             "login" "13800000000" "123456" "654321"
             issued_store consumed_early_store).
  - reflexivity.
  - reflexivity.
  - reflexivity.
  - unfold SetAt, VerifyAt, half_past, at_second, Go.Second. simpl. lia.
Defined.

(** * Properties of the web handlers *)

(** X14: [SignUp] calls [svc.SignUp] exactly when the body was bound, the e-mail
    matched, the two passwords are equal and the password matched, and then
    with the e-mail and password of the request; the service never sees a
    request that failed a check. *)
Theorem SignUp_validation_gate
    (emailExp passwordExp : string → bool * option string)
    (svc_SignUp : User → option service_error)
    (bind : option SignUpReq) (u : User) :
  CallSignUp u ∈ UserHandler_SignUp emailExp passwordExp svc_SignUp bind ↔
  ∃ req, bind = Some req ∧
         emailExp (req_Email req) = (true, None) ∧
         req_ConfirmPassword req = req_Password req ∧
         passwordExp (req_Password req) = (true, None) ∧
         u = {| Id := 0; Email := req_Email req; Password := req_Password req;
                Nickname := ""; Birthday := ""; Brief := "" |}.
Proof.
  unfold UserHandler_SignUp. split.
  - destruct bind as [req|]; [|by intros ?%elem_of_nil].
    destruct (emailExp (req_Email req)) as [[|] [e|]] eqn:He;
      try (intros ?%list_elem_of_singleton; discriminate).
    destruct (String.eqb_spec (req_ConfirmPassword req) (req_Password req))
      as [Hpw|Hpw]; cbn [negb];
      [| intros ?%list_elem_of_singleton; discriminate].
    destruct (passwordExp (req_Password req)) as [[|] [e|]] eqn:Hp;
      try (intros ?%list_elem_of_singleton; discriminate).
    intros H. exists req. split_and!; try done.
    apply elem_of_cons in H as [[= ->] | H]; [done|].
    destruct (svc_SignUp _) as [[]|];
      apply list_elem_of_singleton in H; discriminate.
  - intros (req & -> & He & Hpw & Hp & ->). rewrite He, Hpw, Hp.
    rewrite String.eqb_refl. cbn [negb]. apply elem_of_cons. by left.
Qed.

Lemma SignUp_validation_gate_witness :
  ∃ req, Some {| req_Email := "a@b.c"; req_ConfirmPassword := "hello#123";
                 req_Password := "hello#123" |} = Some req ∧
         (true, @None string) = (true, None) ∧
         req_ConfirmPassword req = req_Password req ∧
         (true, @None string) = (true, None) ∧
         {| Id := 0; Email := "a@b.c"; Password := "hello#123";
            Nickname := ""; Birthday := ""; Brief := "" |} =
         {| Id := 0; Email := req_Email req; Password := req_Password req;
            Nickname := ""; Birthday := ""; Brief := "" |}.
Proof.
  apply (proj1 (SignUp_validation_gate
                  (λ _, (true, None)) (λ _, (true, None))
                  (λ _, Some ErrUserDuplicateEmail)
                  (Some {| req_Email := "a@b.c"; req_ConfirmPassword := "hello#123";
                           req_Password := "hello#123" |})
                  {| Id := 0; Email := "a@b.c"; Password := "hello#123";
                     Nickname := ""; Birthday := ""; Brief := "" |})).
  apply elem_of_cons. left. reflexivity.
Defined.

(** X15: [SignUp] writes nothing itself when the body could not be bound, and
    otherwise exactly one answer, always with status 200; that answer is
    the success message exactly when every check passed and the service
    returned [nil]. *)
Theorem SignUp_answers
    (emailExp passwordExp : string → bool * option string)
    (svc_SignUp : User → option service_error) :
  let SignUp := UserHandler_SignUp emailExp passwordExp svc_SignUp in
  SignUp None = [] ∧
  (∀ req, ∃ body, responses (SignUp (Some req)) = [CtxString StatusOK body]) ∧
  (∀ req,
     responses (SignUp (Some req)) = [CtxString StatusOK "注册成功"] ↔
     emailExp (req_Email req) = (true, None) ∧
     req_ConfirmPassword req = req_Password req ∧
     passwordExp (req_Password req) = (true, None) ∧
     svc_SignUp {| Id := 0; Email := req_Email req; Password := req_Password req;
                   Nickname := ""; Birthday := ""; Brief := "" |} = None).
Proof.
  intros SignUp. subst SignUp. unfold UserHandler_SignUp.
  split; [done|]. split; intros req.
  - destruct (emailExp (req_Email req)) as [[|] [e|]]; try (by eexists).
    destruct (negb _); [by eexists|].
    destruct (passwordExp (req_Password req)) as [[|] [e|]]; try (by eexists).
    destruct (svc_SignUp _) as [[]|]; by eexists.
  - unfold responses.
    destruct (emailExp (req_Email req)) as [[|] [e|]];
      try solve [cbn [List.filter is_response]; split;
                 [intros [=] | intros ([=] & _)]].
    destruct (String.eqb_spec (req_ConfirmPassword req) (req_Password req))
      as [Hpw|Hpw]; cbn [negb];
      [| cbn [List.filter is_response]; split;
         [intros [=] | intros (_ & ? & _); done]].
    destruct (passwordExp (req_Password req)) as [[|] [e|]];
      try solve [cbn [List.filter is_response]; split;
                 [intros [=] | intros (_ & _ & [=] & _)]].
    destruct (svc_SignUp _) as [[]|]; cbn [List.filter is_response];
      try solve [split; [intros [=] | intros (_ & _ & _ & [=])]].
    done.
Qed.

Lemma SignUp_answers_witness :
  responses (UserHandler_SignUp (λ _, (true, None)) (λ _, (true, None)) (λ _, None)
               (Some {| req_Email := "a@b.c"; req_ConfirmPassword := "hello#123";
                        req_Password := "hello#123" |})) =
  [CtxString StatusOK "注册成功"].
Proof.
  apply (proj2 (proj2 (SignUp_answers (λ _, (true, None)) (λ _, (true, None))
                         (λ _, None)))).
  done.
Defined.

(** X16: [Edit] calls [svc.Edit] exactly when the body was bound, the birthday
    matched and nickname and brief have at most 255 runes each, with the
    user id of the session and the three fields of the request.  What
    [svc.Edit] returns changes nothing: once called, the answer is the
    success message even if the service failed. *)
Theorem Edit_validation_gate
    (birthdayExp : string → bool * option string)
    (RuneCountInString : string → Z)
    (svc_Edit : User → option service_error)
    (id : session_value) (bind : option EditReq) (u : User) :
  let Edit := UserHandler_Edit birthdayExp RuneCountInString in
  (CallEdit u ∈ Edit svc_Edit id bind ↔
   ∃ req, bind = Some req ∧
          birthdayExp (req_Birthday req) = (true, None) ∧
          RuneCountInString (req_Nickname req) ≤ 255 ∧
          RuneCountInString (req_Brief req) ≤ 255 ∧
          u = {| Id := session_userId id; Email := ""; Password := "";
                 Nickname := req_Nickname req; Birthday := req_Birthday req;
                 Brief := req_Brief req |}) ∧
  (∀ svc_Edit', Edit svc_Edit' id bind = Edit svc_Edit id bind) ∧
  (CallEdit u ∈ Edit svc_Edit id bind →
   Edit svc_Edit id bind = [CallEdit u; CtxString StatusOK "修改成功"]).
Proof.
  intros Edit. subst Edit. unfold UserHandler_Edit.
  split_and!; [split | done |].
  - destruct bind as [req|]; [|by intros ?%elem_of_nil].
    destruct (birthdayExp (req_Birthday req)) as [[|] [e|]] eqn:Hb;
      try (intros ?%list_elem_of_singleton; discriminate).
    destruct (Z.ltb_spec 255 (RuneCountInString (req_Nickname req)));
      [intros ?%list_elem_of_singleton; discriminate|].
    destruct (Z.ltb_spec 255 (RuneCountInString (req_Brief req)));
      [intros ?%list_elem_of_singleton; discriminate|].
    intros Hin. exists req. split_and!; try done; try lia.
    apply elem_of_cons in Hin as [[= ->] | Hin]; [done|].
    apply list_elem_of_singleton in Hin. discriminate.
  - intros (req & -> & Hb & Hn & Hr & ->). rewrite Hb.
    rewrite (proj2 (Z.ltb_ge _ _) Hn), (proj2 (Z.ltb_ge _ _) Hr).
    apply elem_of_cons. by left.
  - destruct bind as [req|]; [|by intros ?%elem_of_nil].
    destruct (birthdayExp (req_Birthday req)) as [[|] [e|]];
      try (intros ?%list_elem_of_singleton; discriminate).
    destruct (255 <? RuneCountInString (req_Nickname req));
      [intros ?%list_elem_of_singleton; discriminate|].
    destruct (255 <? RuneCountInString (req_Brief req));
      [intros ?%list_elem_of_singleton; discriminate|].
    intros Hin. apply elem_of_cons in Hin as [[= ->] | Hin]; [done|].
    apply list_elem_of_singleton in Hin. discriminate.
Qed.

Lemma Edit_validation_gate_witness :
  UserHandler_Edit (λ _, (true, None)) (λ s, Z.of_nat (String.length s))
    (λ _, Some (ErrService "down")) SessNil
    (Some {| req_Nickname := "tom"; req_Birthday := "1992-01-01"; req_Brief := "hi" |}) =
  [CallEdit {| Id := 0; Email := ""; Password := ""; Nickname := "tom";
               Birthday := "1992-01-01"; Brief := "hi" |};
   CtxString StatusOK "修改成功"].
Proof.
  apply (proj2 (proj2 (Edit_validation_gate
                         (λ _, (true, None)) (λ s, Z.of_nat (String.length s))
                         (λ _, Some (ErrService "down")) SessNil
                         (Some {| req_Nickname := "tom"; req_Birthday := "1992-01-01";
                                  req_Brief := "hi" |})
                         {| Id := 0; Email := ""; Password := ""; Nickname := "tom";
                            Birthday := "1992-01-01"; Brief := "hi" |}))).
  apply elem_of_cons. left. reflexivity.
Defined.

(** X17: [Profile] asks the service for exactly one user: the one whose id the
    session holds, and user 0 when the session holds no [int64] under
    "userId".  It answers with nickname, birthday and brief of the user the
    service returned, or with the error message when the service failed. *)
Theorem Profile_user_of_session
    (svc_GetProfile : Z → User * option service_error) (id : session_value) :
  let Profile := UserHandler_Profile svc_GetProfile id in
  (∀ n, CallGetProfile n ∈ Profile ↔ n = session_userId id) ∧
  ((∀ m, id ≠ SessInt64 m) → CallGetProfile 0 ∈ Profile) ∧
  (∀ a b c,
     CtxJSONP StatusOK a b c ∈ Profile ↔
     ∃ user, svc_GetProfile (session_userId id) = (user, None) ∧
             a = Nickname user ∧ b = Birthday user ∧ c = Brief user) ∧
  (CtxString StatusOK "系统错误" ∈ Profile ↔
   ∃ user e, svc_GetProfile (session_userId id) = (user, Some e)).
Proof.
  intros Profile. subst Profile. unfold UserHandler_Profile.
  assert ((∀ m, id ≠ SessInt64 m) → session_userId id = 0) as Hzero.
  { intros Hno. destruct id as [|m|]; [done | by destruct (Hno m) | done]. }
  destruct (svc_GetProfile (session_userId id)) as [user [e|]] eqn:Hsvc.
  - split_and!.
    + intros n. rewrite elem_of_cons, list_elem_of_singleton.
      split; [intros [[= ->]|[=]]; done | intros ->; by left].
    + intros Hno. rewrite (Hzero Hno). apply elem_of_cons. by left.
    + intros a b c. rewrite elem_of_cons, list_elem_of_singleton.
      split; [intros [[=]|[=]] | intros (u' & [=] & _)].
    + rewrite elem_of_cons, list_elem_of_singleton.
      split; [eauto | intros _; by right].
  - split_and!.
    + intros n. rewrite elem_of_cons, list_elem_of_singleton.
      split; [intros [[= ->]|[=]]; done | intros ->; by left].
    + intros Hno. rewrite (Hzero Hno). apply elem_of_cons. by left.
    + intros a b c. rewrite elem_of_cons, list_elem_of_singleton.
      split; [intros [[=]|[= -> -> ->]]; eauto
             | intros (u' & [= <-] & -> & -> & ->); by right].
    + rewrite elem_of_cons, list_elem_of_singleton.
      split; [intros [[=]|[=]] | intros (u' & e' & [=])].
Qed.

Lemma Profile_user_of_session_witness :
  CallGetProfile 0 ∈
    UserHandler_Profile
      (λ n, ({| Id := n; Email := ""; Password := ""; Nickname := "tom";
                Birthday := "1992-01-01"; Brief := "hi" |}, None))
      SessOther.
Proof.
  apply (proj1 (proj2 (Profile_user_of_session
                         (λ n, ({| Id := n; Email := ""; Password := "";
                                   Nickname := "tom"; Birthday := "1992-01-01";
                                   Brief := "hi" |}, None))
                         SessOther))).
  intros m. discriminate.
Defined.
